(** * nn-weight-extractor: Keras to Darknet converter

    A shallow embedding of the Python converter core:
    - [LayerInfo] (model_parsers/base_parser.py),
    - [_match_conv_bn_pairs] (model_parsers/keras_parser.py),
    - [DarknetWeightsWriter] (darknet_writer.py) with the companion header
      reader [verify_darknet_weights_header] (utils.py),
    - [DarknetCfgGenerator] (cfg_generator.py).

    Conventions of the embedding.
    - Python [int] is [Z]; an [Optional[t]] field is [option t]; [str] is
      [string] (layer names are taken to be ASCII, so [\d] is [0-9]).
    - A numpy float32 array is the list of the IEEE-754 bit patterns of its
      elements in C order; [np.array(x, dtype=np.float32)] is the identity on
      such arrays, and [tofile] writes four bytes per element in the byte
      order of the host.
    - The writer object is a record threaded through a state-and-exception
      monad: what was written before an exception stays written. *)

From Stdlib Require Import ZArith List String Ascii Lia Bool.
From coqutil Require Import Byte Word.LittleEndianList.
From stdpp Require Import base option list strings gmap pretty.

Local Open Scope Z_scope.

(** ** Bytes, integers and float32 values in host byte order *)

Inductive ByteOrder := LittleEndian | BigEndian.

(** A float32 value, as its 32-bit pattern. *)
Record float32 := F32 { f32_bits : Z }.

Definition f32_zero : float32 := F32 0.

(** Truth value of a float32 element under numpy's [any()]: everything except
    [+0.0] and [-0.0] counts as true (NaN included). *)
Definition f32_truthy (x : float32) : bool :=
  negb (Z.land (f32_bits x) 2147483647 =? 0).

Definition to_signed (nbytes : nat) (u : Z) : Z :=
  if u <? 2 ^ (8 * Z.of_nat nbytes - 1) then u else u - 2 ^ (8 * Z.of_nat nbytes).


(** ** base_parser.LayerInfo *)

Record LayerInfo := mkLayerInfo {
  name : string;
  type : string;
  index : Z;
  (* Convolutional layer parameters *)
  filters : option Z;
  channels : option Z;
  kernel_size : option Z;
  stride : option Z;
  padding : option Z;
  groups : option Z;
  activation : option string;
  batch_normalize : bool;
  (* Weights and biases *)
  weights : option (list float32);
  biases : option (list float32);
  (* Batch normalization parameters *)
  bn_gamma : option (list float32);
  bn_beta : option (list float32);
  bn_mean : option (list float32);
  bn_variance : option (list float32);
  (* Maxpool parameters *)
  pool_size : option Z;
  pool_stride : option Z;
  (* Route/Shortcut parameters *)
  layers : option (list Z);
  (* Additional metadata *)
  input_shape : option (list (option Z));
  output_shape : option (list (option Z))
}.

(** [layer.type == s] *)
Definition type_is (s : string) (layer : LayerInfo) : bool :=
  String.eqb (type layer) s.

(** ** Exceptions *)

Inductive Error :=
| RuntimeError_file_not_opened
| ValueError_not_convolutional
| ValueError_missing_weights
| ValueError_biases_size_mismatch
| ValueError_bn_parameters_missing
| ValueError_scales_size_mismatch
| ValueError_mean_size_mismatch
| ValueError_variance_size_mismatch
| ValueError_weights_size_mismatch
| ValueError_negative_dimensions
| ValueError_header_too_short
| TypeError_none_dimension
| IndexError_empty_array
| StructError_out_of_range.

Inductive outcome (A : Type) :=
| Ok (a : A)
| Raise (e : Error).
Arguments Ok {A} a.
Arguments Raise {A} e.

(** ** The writer object and its monad *)

Record DarknetWeightsWriter := mkWriter {
  (* Contents of the file at [output_path]. *)
  output_file : list byte;
  (* [true] iff [self.file_handle] holds an open handle. *)
  file_handle : bool;
  total_bytes_written : Z
}.

Definition W (A : Type) : Type :=
  DarknetWeightsWriter -> DarknetWeightsWriter * outcome A.

Definition raise {A} (e : Error) : W A := fun w => (w, Raise e).

#[global] Instance W_ret : MRet W := fun A a w => (w, Ok a).

(** Sequencing: an exception ends the computation and keeps the state. *)
#[global] Instance W_bind : MBind W := fun A B k m w =>
  match m w with
  | (w', Ok a) => k a w'
  | (w', Raise e) => (w', Raise e)
  end.

Definition lift {A} (o : outcome A) : W A := fun w => (w, o).

(** [self.file_handle.write(data)] *)
Definition file_write (data : list byte) : W unit :=
  fun w => (mkWriter (output_file w ++ data) (file_handle w)
                     (total_bytes_written w), Ok tt).

(** [self.total_bytes_written += n] *)
Definition add_bytes_written (n : Z) : W unit :=
  fun w => (mkWriter (output_file w) (file_handle w)
                     (total_bytes_written w + n), Ok tt).

(** [if not self.file_handle: raise RuntimeError(...)] *)
Definition require_open : W unit :=
  fun w => if file_handle w then (w, Ok tt)
           else (w, Raise RuntimeError_file_not_opened).

(** [open] on a writer that holds no open handle, as [__init__] and [close]
    leave it: the file is created or truncated and the counter starts again
    at 0. *)
Definition open : W unit :=
  fun w => (mkWriter [] true 0, Ok tt).

Definition close : W unit :=
  fun w => (mkWriter (output_file w) false (total_bytes_written w), Ok tt).

(** [try: body finally: self.close()] *)
Definition try_finally_close {A} (body : W A) : W A :=
  fun w => match body w with
           | (w', r) => (fst (close w'), r)
           end.

(** ** Encoding in the byte order of the host *)

Section Host.

Variable host : ByteOrder.

Definition encode_int (nbytes : nat) (v : Z) : list byte :=
  match host with
  | LittleEndian => le_split nbytes v
  | BigEndian => rev (le_split nbytes v)
  end.

Definition decode_uint (bs : list byte) : Z :=
  match host with
  | LittleEndian => le_combine bs
  | BigEndian => le_combine (rev bs)
  end.

Definition decode_int (bs : list byte) : Z :=
  to_signed (length bs) (decode_uint bs).

(** [ndarray.tofile] of a float32 array: C order, four bytes per element. *)
Definition f32_bytes (a : list float32) : list byte :=
  flat_map (fun x => encode_int 4 (f32_bits x)) a.

(** ** struct.pack *)

Definition in_int32 (v : Z) : bool := (-2147483648 <=? v) && (v <? 2147483648).
Definition in_int64 (v : Z) : bool :=
  (-9223372036854775808 <=? v) && (v <? 9223372036854775808).

(** [struct.pack('i', v)] *)
Definition struct_pack_i (v : Z) : outcome (list byte) :=
  if in_int32 v then Ok (encode_int 4 v) else Raise StructError_out_of_range.

(** [struct.pack('q', v)] *)
Definition struct_pack_q (v : Z) : outcome (list byte) :=
  if in_int64 v then Ok (encode_int 8 v) else Raise StructError_out_of_range.

(** [struct.pack('iii', a, b, c)]: three ints, no padding between them. *)
Definition struct_pack_iii (a b c : Z) : outcome (list byte) :=
  match struct_pack_i a, struct_pack_i b, struct_pack_i c with
  | Ok x, Ok y, Ok z => Ok (x ++ y ++ z)
  | _, _, _ => Raise StructError_out_of_range
  end.

(** ** DarknetWeightsWriter.write_header *)

Definition write_header (major minor revision seen : Z) : W unit :=
  require_open ;;
  header_data ← lift (struct_pack_iii major minor revision);
  file_write header_data ;;
  add_bytes_written 12 ;;
  if 2 <=? major * 10 + minor then
    seen_data ← lift (struct_pack_q seen);
    file_write seen_data ;;
    add_bytes_written 8
  else
    seen_data ← lift (struct_pack_i seen);
    file_write seen_data ;;
    add_bytes_written 4.

(** ** DarknetWeightsWriter.write_convolutional_layer *)

(** [np.zeros(n, dtype=np.float32)] *)
Definition np_zeros (n : option Z) : outcome (list float32) :=
  match n with
  | None => Raise TypeError_none_dimension
  | Some k =>
      if k <? 0 then Raise ValueError_negative_dimensions
      else Ok (repeat f32_zero (Z.to_nat k))
  end.

(** [a.shape[0] != n] for a one-dimensional array [a] *)
Definition shape0_differs (a : list float32) (n : option Z) : bool :=
  match n with
  | Some k => negb (Z.of_nat (length a) =? k)
  | None => true
  end.

(** [a.size] and [a.nbytes] *)
Definition np_size (a : list float32) : Z := Z.of_nat (length a).
Definition nbytes (a : list float32) : Z := 4 * Z.of_nat (length a).

(** [a.tofile(self.file_handle)] *)
Definition tofile (a : list float32) : W unit := file_write (f32_bytes a).

Definition write_convolutional_layer (layer : LayerInfo) : W unit :=
  require_open ;;
  if negb (type_is "convolutional" layer) then
    raise ValueError_not_convolutional
  else
  match weights layer with
  | None => raise ValueError_missing_weights
  | Some layer_weights =>
    let n := filters layer in
    let num_weights := np_size layer_weights in
    (* Get biases or create zeros if missing (use_bias=False) *)
    biases ← match biases layer with
              | None => lift (np_zeros n)
              | Some b => mret b
              end;
    if shape0_differs biases n then raise ValueError_biases_size_mismatch
    else
    tofile biases ;;
    add_bytes_written (nbytes biases) ;;
    (* Write batch normalization parameters if present *)
    (if batch_normalize layer then
       match bn_gamma layer, bn_mean layer, bn_variance layer with
       | Some scales, Some mean, Some variance =>
           if shape0_differs scales n then
             raise ValueError_scales_size_mismatch
           else
           tofile scales ;;
           add_bytes_written (nbytes scales) ;;
           if shape0_differs mean n then raise ValueError_mean_size_mismatch
           else
           tofile mean ;;
           add_bytes_written (nbytes mean) ;;
           if shape0_differs variance n then
             raise ValueError_variance_size_mismatch
           else
           tofile variance ;;
           add_bytes_written (nbytes variance)
       | _, _, _ => raise ValueError_bn_parameters_missing
       end
     else mret tt) ;;
    (* Write weights *)
    let weights := layer_weights in
    if negb (np_size weights =? num_weights) then
      raise ValueError_weights_size_mismatch
    else
    tofile weights ;;
    add_bytes_written (nbytes weights)
  end.

(** [for x in l: f(x)] *)
Fixpoint for_each {A} (f : A -> W unit) (l : list A) : W unit :=
  match l with
  | [] => mret tt
  | x :: xs => f x ;; for_each f xs
  end.

Definition write_layers (layers : list LayerInfo) : W unit :=
  let conv_layers := List.filter (type_is "convolutional") layers in
  for_each write_convolutional_layer conv_layers.

Definition write_model (layers : list LayerInfo)
    (major minor revision seen : Z) : W unit :=
  open ;;
  try_finally_close (write_header major minor revision seen ;;
                     write_layers layers).

(** A writer as [__init__] leaves it. *)
Definition new_writer : DarknetWeightsWriter := mkWriter [] false 0.

(** [write_darknet_weights(output_path, layers)]: the file left at
    [output_path] and how the call ended. *)
Definition write_darknet_weights (layers : list LayerInfo)
  : list byte * outcome unit :=
  let '(w, r) := write_model layers 0 2 0 0 new_writer in
  (output_file w, r).

(** ** utils.verify_darknet_weights_header *)

(** [np.fromfile(f, dtype, count)] on a handle whose unread part is [f]:
    reads whole items while [count] is not reached and enough bytes remain;
    returns the items and the unread rest. *)
Fixpoint np_fromfile (itemsize : nat) (count : nat) (f : list byte)
  : list Z * list byte :=
  match count with
  | O => ([], f)
  | S c =>
      if (length f <? itemsize)%nat then ([], f)
      else
        let '(xs, f') := np_fromfile itemsize c (drop itemsize f) in
        (decode_int (take itemsize f) :: xs, f')
  end.

Definition verify_darknet_weights_header (file : list byte)
  : outcome (Z * Z * Z * Z) :=
  let '(header, _) := np_fromfile 4 5 file in
  if (length header <? 5)%nat then Raise ValueError_header_too_short
  else
    let major := nth 0 header 0 in
    let minor := nth 1 header 0 in
    let revision := nth 2 header 0 in
    if 2 <=? major * 10 + minor then
      (* f.seek(0), then reread *)
      let '(_, f1) := np_fromfile 4 3 file in
      let '(seen, _) := np_fromfile 8 1 f1 in
      match seen with
      | s :: _ => Ok (major, minor, revision, s)
      | [] => Raise IndexError_empty_array
      end
    else
      Ok (major, minor, revision, nth 3 header 0).

End Host.

(** ** KerasParser._match_conv_bn_pairs *)

(** The class of digits of the regular expression on a name of ASCII
    characters: the ten digits 0 to 9. *)
Definition is_digit (c : ascii) : bool :=
  let k := nat_of_ascii c in (48 <=? k)%nat && (k <=? 57)%nat.

(** Longest run of digits at the front of a (reversed) name, and the rest. *)
Fixpoint span_digits (r : list ascii) : list ascii * list ascii :=
  match r with
  | c :: t =>
      if is_digit c then
        let '(d, rest) := span_digits t in (c :: d, rest)
      else ([], r)
  | [] => ([], [])
  end.

(** [re.search(r'_(\d+)$', s)]: [group(1)] when there is a match. [$]
    matches at the end of the string and also just before a newline that
    ends the string. *)
Definition re_search_number (s : string) : option string :=
  let r := rev (list_ascii_of_string s) in
  let r := match r with
           | c :: t => if Ascii.eqb c "010" then t else r
           | [] => r
           end in
  let '(d, rest) := span_digits r in
  match d, rest with
  | _ :: _, u :: _ =>
      if Ascii.eqb u "_" then Some (string_of_list_ascii (rev d)) else None
  | _, _ => None
  end.

(** The dictionary [bn_layers] maps a convolution name to a reference to a
    record of [self.layers]; a reference is the position of the record in the
    list. One iteration of the first loop, for the record at position [p]: *)
Definition bn_layers_add (bn_layers : gmap string nat) (p : nat)
    (layer : LayerInfo) : gmap string nat :=
  if type_is "batch_normalization" layer then
    match re_search_number (name layer) with
    | Some num =>
        <[ "convolutional_" +:+ num := p ]>
          (<[ "conv2d_" +:+ num := p ]> bn_layers)
    | None =>
        if String.eqb (name layer) "batch_normalization" then
          <[ "conv2d" := p ]> bn_layers
        else bn_layers
    end
  else bn_layers.

Fixpoint build_bn_layers_from (p : nat) (ls : list LayerInfo)
    (bn_layers : gmap string nat) : gmap string nat :=
  match ls with
  | [] => bn_layers
  | layer :: rest =>
      build_bn_layers_from (S p) rest (bn_layers_add bn_layers p layer)
  end.

Definition build_bn_layers (ls : list LayerInfo) : gmap string nat :=
  build_bn_layers_from 0 ls ∅.

(** [current.biases is None or not current.biases.any()] *)
Definition biases_none_or_zero (current : LayerInfo) : bool :=
  match biases current with
  | None => true
  | Some b => negb (existsb f32_truthy b)
  end.

(** The assignments made to [current] once [bn_layer] is found. *)
Definition fuse (current bn_layer : LayerInfo) : LayerInfo :=
  {| name := name current;
     type := type current;
     index := index current;
     filters := filters current;
     channels := channels current;
     kernel_size := kernel_size current;
     stride := stride current;
     padding := padding current;
     groups := groups current;
     activation := activation current;
     batch_normalize := true;
     weights := weights current;
     biases := if biases_none_or_zero current then bn_beta bn_layer
               else biases current;
     bn_gamma := bn_gamma bn_layer;
     bn_beta := bn_beta bn_layer;
     bn_mean := bn_mean bn_layer;
     bn_variance := bn_variance bn_layer;
     pool_size := pool_size current;
     pool_stride := pool_stride current;
     layers := layers current;
     input_shape := input_shape current;
     output_shape := output_shape current |}.

(** The lookup of the second loop for the convolution [current] at position
    [i]: by name in [bn_layers] first, otherwise the next record of the list
    when it is a batch normalization. *)
Definition find_bn_layer (bn_layers : gmap string nat) (ls : list LayerInfo)
    (i : nat) (current : LayerInfo) : option nat :=
  match bn_layers !! name current with
  | Some p => Some p
  | None =>
      if decide (i + 1 < length ls)%nat then
        match ls !! (i + 1)%nat with
        | Some next_layer =>
            if type_is "batch_normalization" next_layer then Some (i + 1)%nat
            else None
        | None => None
        end
      else None
  end.

(** One iteration of the second loop; [ls] is [self.layers] as the earlier
    iterations left it. *)
Definition match_step (bn_layers : gmap string nat) (ls : list LayerInfo)
    (i : nat) : list LayerInfo :=
  match ls !! i with
  | Some current =>
      if type_is "convolutional" current then
        match find_bn_layer bn_layers ls i current with
        | Some p =>
            match ls !! p with
            | Some bn_layer => <[ i := fuse current bn_layer ]> ls
            | None => ls
            end
        | None => ls
        end
      else ls
  | None => ls
  end.

Definition _match_conv_bn_pairs (ls : list LayerInfo) : list LayerInfo :=
  fold_left (match_step (build_bn_layers ls)) (seq 0 (length ls)) ls.

(** [parse_layers], from the records its first pass has appended to
    [self.layers] (that pass reads the Keras model): the second pass runs and
    [self.layers] is returned. *)
Definition parse_layers (loaded : list LayerInfo) : list LayerInfo :=
  _match_conv_bn_pairs loaded.

(** [LayerInfo(name=.., type=.., index=..)]: every other field takes the
    default of the dataclass. *)
Definition LayerInfo_default (nm ty : string) (ix : Z) : LayerInfo :=
  mkLayerInfo nm ty ix None None None None None None None false
    None None None None None None None None None None None.

(** ** BaseParser.validate, the part about convolutions *)

Inductive ValidationError :=
| No_layers_found
| Input_shape_not_determined
| weights_not_extracted (layer_name : string)
| BN_gamma_not_found (layer_name : string)
| BN_mean_not_found (layer_name : string)
| BN_variance_not_found (layer_name : string).

Definition get_conv_layers (ls : list LayerInfo) : list LayerInfo :=
  List.filter (type_is "convolutional") ls.

(** [x is None] *)
Definition is_None {A} (x : option A) : bool :=
  match x with
  | None => true
  | Some _ => false
  end.

(** The errors appended for one convolution. *)
Definition validate_conv (layer : LayerInfo) : list ValidationError :=
  (if is_None (weights layer) then [weights_not_extracted (name layer)]
   else []) ++
  (if batch_normalize layer then
     (if is_None (bn_gamma layer) then [BN_gamma_not_found (name layer)]
      else []) ++
     (if is_None (bn_mean layer) then [BN_mean_not_found (name layer)]
      else []) ++
     (if is_None (bn_variance layer) then [BN_variance_not_found (name layer)]
      else [])
   else []).

(** [validate()], on [self.layers] and [self.input_shape] (a tuple of three
    when it is set). *)
Definition validate (ls : list LayerInfo) (shape : option (Z * Z * Z))
  : bool * list ValidationError :=
  let errors :=
    (match ls with [] => [No_layers_found] | _ :: _ => [] end) ++
    (if is_None shape then [Input_shape_not_determined] else []) ++
    flat_map validate_conv (get_conv_layers ls) in
  ((length errors =? 0)%nat, errors).

(** ** cfg_generator.DarknetCfgGenerator

    Every [write_*] method is the text it appends to the file. *)

Definition nl : string := String "010" EmptyString.

(** [str(v)] for an int *)
Definition str_int (v : Z) : string := pretty v.

(** [f"{v}"] for an [Optional[int]] field *)
Definition fmt_opt_int (v : option Z) : string :=
  match v with
  | Some k => str_int k
  | None => "None"
  end.

(** Truth value of an [Optional[int]] *)
Definition truthy_int (v : option Z) : bool :=
  match v with
  | Some k => negb (k =? 0)
  | None => false
  end.

(** [momentum] and [decay] are floats that [generate] never passes, so the
    defaults 0.9 and 0.0005 are what is formatted; they are kept here as the
    text Python prints for them. *)
Definition write_net_section (input_shape : Z * Z * Z)
    (batch subdivisions : Z) (momentum decay : string) : string :=
  let '(height, width, channels) := input_shape in
  "[net]" +:+ nl +:+
  "batch=" +:+ str_int batch +:+ nl +:+
  "subdivisions=" +:+ str_int subdivisions +:+ nl +:+
  "width=" +:+ str_int width +:+ nl +:+
  "height=" +:+ str_int height +:+ nl +:+
  "channels=" +:+ str_int channels +:+ nl +:+
  "momentum=" +:+ momentum +:+ nl +:+
  "decay=" +:+ decay +:+ nl +:+
  nl.

Definition cfg_activation (a : option string) : string :=
  match a with
  | Some act =>
      if String.eqb act "linear" then "linear"
      else if String.eqb act "relu" || String.eqb act "leaky"
              || String.eqb act "leaky_relu" then "leaky"
      else "linear"
  | None => "linear"
  end.

Definition cfg_write_convolutional_layer (layer : LayerInfo) : string :=
  "[convolutional]" +:+ nl +:+
  (if batch_normalize layer then "batch_normalize=1" +:+ nl else EmptyString) +:+
  "filters=" +:+ fmt_opt_int (filters layer) +:+ nl +:+
  "size=" +:+ fmt_opt_int (kernel_size layer) +:+ nl +:+
  "stride=" +:+ fmt_opt_int (stride layer) +:+ nl +:+
  "pad=" +:+ (if truthy_int (padding layer) then "1" else "0") +:+ nl +:+
  (match groups layer with
   | Some g =>
       if negb (g =? 0) && (1 <? g) then "groups=" +:+ str_int g +:+ nl
       else EmptyString
   | None => EmptyString
   end) +:+
  "activation=" +:+ cfg_activation (activation layer) +:+ nl +:+
  nl.

Definition write_maxpool_layer (layer : LayerInfo) : string :=
  "[maxpool]" +:+ nl +:+
  "size=" +:+ fmt_opt_int (pool_size layer) +:+ nl +:+
  "stride=" +:+ fmt_opt_int (pool_stride layer) +:+ nl +:+
  nl.

Definition write_upsample_layer (layer : LayerInfo) : string :=
  "[upsample]" +:+ nl +:+
  "stride=" +:+ fmt_opt_int (stride layer) +:+ nl +:+
  nl.

(** [", ".join(str(l) for l in ls)] *)
Fixpoint join_ints (ls : list Z) : string :=
  match ls with
  | [] => EmptyString
  | [x] => str_int x
  | x :: rest => str_int x +:+ ", " +:+ join_ints rest
  end.

Definition write_route_layer (layer : LayerInfo) : string :=
  "[route]" +:+ nl +:+
  (match layers layer with
   | Some (x :: rest) => "layers=" +:+ join_ints (x :: rest) +:+ nl
   | _ => "layers=-1" +:+ nl
   end) +:+
  nl.

Definition write_shortcut_layer (layer : LayerInfo) : string :=
  "[shortcut]" +:+ nl +:+
  (match layers layer with
   | Some (x :: _) => "from=" +:+ str_int x +:+ nl
   | _ => "from=-3" +:+ nl
   end) +:+
  "activation=linear" +:+ nl +:+
  nl.

(** [write_yolo_layer(file, num_classes, anchors, mask)]; [None] and the
    empty string both select the default text. *)
Definition write_yolo_layer (num_classes : Z) (anchors mask : option string)
  : string :=
  "[yolo]" +:+ nl +:+
  (match mask with
   | Some (String c m) => "mask=" +:+ String c m +:+ nl
   | _ => "mask=6,7,8" +:+ nl
   end) +:+
  (match anchors with
   | Some (String c a) => "anchors=" +:+ String c a +:+ nl
   | _ => "anchors=10,13, 16,30, 33,23, 30,61, 62,45, "
          +:+ "59,119, 116,90, 156,198, 373,326" +:+ nl
   end) +:+
  "classes=" +:+ str_int num_classes +:+ nl +:+
  "num=9" +:+ nl +:+
  "jitter=.3" +:+ nl +:+
  "ignore_thresh=.5" +:+ nl +:+
  "truth_thresh=1" +:+ nl +:+
  "random=1" +:+ nl +:+
  nl.

Definition write_layer (layer : LayerInfo) : string :=
  if type_is "convolutional" layer then cfg_write_convolutional_layer layer
  else if type_is "maxpool" layer then write_maxpool_layer layer
  else if type_is "upsample" layer then write_upsample_layer layer
  else if type_is "route" layer then write_route_layer layer
  else if type_is "shortcut" layer then write_shortcut_layer layer
  else EmptyString.

(** [generate]: the text of the file and the final [layer_count]. *)
Fixpoint generate_layers (ls : list LayerInfo) (layer_count : Z)
  : string * Z :=
  match ls with
  | [] => (EmptyString, layer_count)
  | layer :: rest =>
      if negb (type_is "batch_normalization" layer) then
        let '(text, k) := generate_layers rest (layer_count + 1) in
        (write_layer layer +:+ text, k)
      else generate_layers rest layer_count
  end.

Definition generate (ls : list LayerInfo) (input_shape : Z * Z * Z)
    (batch subdivisions : Z) : string * Z :=
  let '(text, layer_count) := generate_layers ls 0 in
  (write_net_section input_shape batch subdivisions "0.9" "0.0005" +:+ text,
   layer_count).


(** ** Vocabulary of the statements about the writer *)

(** The biases array that [write_convolutional_layer] checks and writes: the
    one of the record, or the zeros of [np.zeros(n)]. *)
Definition biases_or_zeros (layer : LayerInfo) : list float32 :=
  match biases layer with
  | Some b => b
  | None => repeat f32_zero (Z.to_nat (default 0 (filters layer)))
  end.

(** The arrays of the block that are already in the file when
    [write_convolutional_layer] raises [e]. *)
Definition written_before (e : Error) (layer : LayerInfo) : list float32 :=
  match e with
  | ValueError_bn_parameters_missing
  | ValueError_scales_size_mismatch => biases_or_zeros layer
  | ValueError_mean_size_mismatch =>
      biases_or_zeros layer ++ default [] (bn_gamma layer)
  | ValueError_variance_size_mismatch =>
      biases_or_zeros layer ++ default [] (bn_gamma layer) ++
      default [] (bn_mean layer)
  | _ => []
  end.

(** The element count that the declared shape of a convolution gives its
    weights: filters x channels/groups x kernel_size^2. *)
Definition declared_weight_count (layer : LayerInfo) : option Z :=
  match filters layer, channels layer, groups layer, kernel_size layer with
  | Some n, Some c, Some g, Some k => Some (n * (c / g) * (k * k))
  | _, _, _, _ => None
  end.

(** ** Records used as concrete inputs *)

Definition conv_record (nm : string) (n : Z) (w b : option (list float32))
    (bn : bool) (gamma beta mean variance : option (list float32))
  : LayerInfo :=
  mkLayerInfo nm "convolutional" 0 (Some n) (Some 1) (Some 1) (Some 1)
    (Some 0) (Some 1) (Some "linear"%string) bn w b gamma beta mean variance
    None None None None None.

(** One filter, flagged as normalized, with a scale array of length 0. *)
Definition short_scales_layer : LayerInfo :=
  conv_record "conv2d_1" 1 (Some [F32 1065353216]) (Some [F32 1073741824])
    true (Some []) (Some [F32 0]) (Some [F32 0]) (Some [F32 1065353216]).

(** One filter, flagged as normalized, with no shift array. *)
Definition no_shift_layer : LayerInfo :=
  conv_record "conv2d_1" 1 (Some [F32 1065353216]) (Some [F32 1073741824])
    true (Some [F32 1065353216]) None (Some [F32 0]) (Some [F32 1065353216]).

(** One filter, flagged as normalized, with no scale array. *)
Definition no_scales_layer : LayerInfo :=
  conv_record "conv2d_1" 1 (Some [F32 0]) (Some [F32 0])
    true None (Some [F32 0]) (Some [F32 0]) (Some [F32 0]).

(** Two filters, no biases, not normalized. *)
Definition no_biases_layer : LayerInfo :=
  conv_record "conv2d_1" 2 (Some [F32 1065353216; F32 1073741824]) None
    false None None None None.

(** Declared as 2 filters of 3 channels with 3x3 kernels (54 weights), but
    holding a single weight. *)
Definition one_weight_layer : LayerInfo :=
  mkLayerInfo "conv2d_1" "convolutional" 0 (Some 2) (Some 3) (Some 3) (Some 1)
    (Some 1) (Some 1) (Some "linear"%string) false
    (Some [F32 1065353216]) (Some [F32 0; F32 0]) None None None None
    None None None None None.

Definition open_writer : DarknetWeightsWriter := mkWriter [] true 0.

(** ** Vocabulary of the statements about the reconciler *)

(** The record that the iteration for position [i] leaves at position [i],
    read off the list [ls] as it was before the loop. *)
Definition reconcile_at (bn_layers : gmap string nat) (ls : list LayerInfo)
    (i : nat) (current : LayerInfo) : LayerInfo :=
  if type_is "convolutional" current then
    match find_bn_layer bn_layers ls i current with
    | Some p =>
        match ls !! p with
        | Some bn_layer => fuse current bn_layer
        | None => current
        end
    | None => current
    end
  else current.

(** Every reference kept in [bn_layers] points to a batch normalization. *)
Definition refs_to_bn (d : gmap string nat) (ls : list LayerInfo) : Prop :=
  forall key p, d !! key = Some p ->
    exists bn, ls !! p = Some bn /\ type_is "batch_normalization" bn = true.

(** The list while the second loop runs: positions below [k] are done. *)
Definition partly_done (d : gmap string nat) (ls : list LayerInfo) (k : nat)
  : list LayerInfo :=
  imap (fun j c => if decide (j < k)%nat then reconcile_at d ls j c else c) ls.

Definition bn_record (nm : string) (ix : Z) (gamma beta mean variance : Z)
  : LayerInfo :=
  mkLayerInfo nm "batch_normalization" ix None None None None None None None
    false None None (Some [F32 gamma]) (Some [F32 beta]) (Some [F32 mean])
    (Some [F32 variance]) None None None None None.

(** A convolution followed by its batch normalization. *)
Definition conv_then_bn : list LayerInfo :=
  [ LayerInfo_default "conv2d_1" "convolutional" 0;
    bn_record "batch_normalization_1" 1 11 12 13 14 ].

(** Two convolutions and one batch normalization: the first convolution owns
    it by name, the second is its neighbour in the list. *)
Definition two_convs_one_bn : list LayerInfo :=
  [ LayerInfo_default "conv2d_5" "convolutional" 0;
    LayerInfo_default "head" "convolutional" 1;
    bn_record "batch_normalization_5" 2 11 12 13 14 ].

(** A record of the type that the comment on [LayerInfo.type] calls
    'yolo'. *)
Definition yolo_record : LayerInfo := LayerInfo_default "yolo_1" "yolo" 0.

(** [l for l in ls if l.type != 'batch_normalization'] *)
Definition without_bn (ls : list LayerInfo) : list LayerInfo :=
  List.filter (fun l => negb (type_is "batch_normalization" l)) ls.

(** ** BaseParser: lookups and the parameter count of print_summary *)

(** [get_layer_by_name]: the first record with that name. *)
Definition get_layer_by_name (ls : list LayerInfo) (nm : string)
  : option LayerInfo :=
  List.find (fun layer => String.eqb (name layer) nm) ls.

(** [get_layer_by_index]: the first record with that index. *)
Definition get_layer_by_index (ls : list LayerInfo) (ix : Z)
  : option LayerInfo :=
  List.find (fun layer => index layer =? ix) ls.

(** [x.size if x is not None], else nothing is added. *)
Definition size_or_zero (x : option (list float32)) : Z :=
  match x with
  | Some a => Z.of_nat (length a)
  | None => 0
  end.

(** The [total_params] that [print_summary] adds up over the convolutions. *)
Definition total_params (ls : list LayerInfo) : Z :=
  fold_left
    (fun total layer =>
       total + size_or_zero (weights layer) + size_or_zero (biases layer))
    (get_conv_layers ls) 0.

(** ** utils: sizes *)

(** [calculate_conv_output_size]; [None] is the ZeroDivisionError of a
    stride of 0. Python's [//] rounds down, as [Z.div] does. *)
Definition calculate_conv_output_size
    (input_size kernel_size stride padding : Z) : option Z :=
  if stride =? 0 then None
  else Some ((input_size + 2 * padding - kernel_size) / stride + 1).

(** The padding that [_parse_conv2d] derives from the padding mode of the
    Keras layer. *)
Definition conv2d_padding (padding_mode : string) (kernel_size : Z) : Z :=
  if String.eqb padding_mode "same" then kernel_size / 2
  else if String.eqb padding_mode "valid" then 0
  else 0.

Definition count_parameters (weights_shape : list Z) : Z :=
  fold_left (fun count dim => count * dim) weights_shape 1.

(** ** KerasParser.get_input_shape and h5_to_darknet.determine_input_shape *)

(** [model.input_shape]: one shape, or a list of shapes for a model with
    several inputs. A dimension is an int or [None]. *)
Inductive KerasInputShape :=
| OneInput (shape : list (option Z))
| ManyInputs (shapes : list (list (option Z))).

(** [v if v else d] *)
Definition value_or (v : option Z) (d : Z) : Z :=
  match v with
  | Some k => if k =? 0 then d else k
  | None => d
  end.

(** [get_input_shape], from [self.model] ([None] when nothing is loaded).
    The result [None] is the IndexError of an empty list of shapes. *)
Definition get_input_shape (model : option KerasInputShape)
  : option (Z * Z * Z) :=
  match model with
  | None => Some (0, 0, 0)
  | Some input_shape =>
      let first :=
        match input_shape with
        | OneInput shape => Some shape
        | ManyInputs shapes => head shapes
        end in
      match first with
      | None => None
      | Some [_; h; w; c] => Some (value_or h 416, value_or w 416, value_or c 3)
      | Some _ => Some (416, 416, 3)
      end
  end.

(** The command-line arguments that [determine_input_shape] reads. *)
Module Args.
Record t := mk {
  img_size : option Z;
  img_width : option Z;
  img_height : option Z;
  (* [--channels] has the default 3, so it is always an int *)
  channels : Z
}.
End Args.

Definition determine_input_shape (args : Args.t)
    (parser_input_shape : Z * Z * Z) : Z * Z * Z :=
  let '(h, w, c) := parser_input_shape in
  let w := if truthy_int (Args.img_width args)
           then value_or (Args.img_width args) w
           else if truthy_int (Args.img_size args)
                then value_or (Args.img_size args) w
                else w in
  let h := if truthy_int (Args.img_height args)
           then value_or (Args.img_height args) h
           else if truthy_int (Args.img_size args)
                then value_or (Args.img_size args) h
                else h in
  let c := if negb (Args.channels args =? 0) then Args.channels args else c in
  (h, w, c).

(** ** utils.read_binary_floats, utils.write_binary_floats and
    format_detector._is_darknet_weights *)

Inductive read_result :=
| ReadOk (data : list float32) (rest : list byte)
| ReadValueError.

Section HostFiles.

Variable host : ByteOrder.

(** [np.fromfile(f, dtype=np.float32, count)], as [np_fromfile] but with
    items that are float32 bit patterns. *)
Fixpoint np_fromfile_f32 (count : nat) (f : list byte)
  : list float32 * list byte :=
  match count with
  | O => ([], f)
  | S c =>
      if (length f <? 4)%nat then ([], f)
      else
        let '(xs, f') := np_fromfile_f32 c (drop 4 f) in
        (F32 (decode_uint host (take 4 f)) :: xs, f')
  end.

(** [read_binary_floats(file_handle, count)] on a handle whose unread part
    is [f], for a count that [np.fromfile] takes as a C [ssize_t]. A
    negative count makes numpy read every item left, and the length test
    then fails. *)
Definition read_binary_floats (f : list byte) (count : Z) : read_result :=
  let '(data, rest) :=
    np_fromfile_f32
      (if count <? 0 then (length f / 4)%nat else Z.to_nat count) f in
  if negb (Z.of_nat (length data) =? count) then ReadValueError
  else ReadOk data rest.

(** [write_binary_floats(file_handle, data)] for a float32 array: the file
    after the call. *)
Definition write_binary_floats (f : list byte) (data : list float32)
  : list byte :=
  f ++ f32_bytes host data.

(** [_is_darknet_weights]; [None] is a file that cannot be opened. *)
Definition _is_darknet_weights (file : option (list byte)) : bool :=
  match file with
  | None => false
  | Some content =>
      let header := take 12 content in
      if (length header <? 12)%nat then false
      else
        let major := decode_int host (take 4 header) in
        let minor := decode_int host (take 4 (drop 4 header)) in
        let revision := decode_int host (take 4 (drop 8 header)) in
        (0 <=? major) && (major <=? 10) && (0 <=? minor) && (minor <=? 10)
        && (0 <=? revision) && (revision <=? 10)
  end.

End HostFiles.

(** ** Vocabulary of the further statements *)

(** The arrays of a block in the order they are written. *)
Definition block_arrays (layer : LayerInfo) : list float32 :=
  biases_or_zeros layer ++
  (if batch_normalize layer then
     default [] (bn_gamma layer) ++ default [] (bn_mean layer) ++
     default [] (bn_variance layer)
   else []) ++
  default [] (weights layer).

(** A computation of the writer that only appends to the file, keeps the
    handle and moves the byte counter by what it appends, however it ends. *)
Definition appends {A} (m : W A) : Prop :=
  forall w, exists bs,
    fst (m w) =
    mkWriter (output_file w ++ bs) (file_handle w)
      (total_bytes_written w + Z.of_nat (length bs)).

(** Every element is the bit pattern of a float32. *)
Definition f32_valid (a : list float32) : Prop :=
  Forall (fun x => 0 <= f32_bits x < 4294967296) a.

(** The keys that the first loop of [_match_conv_bn_pairs] sets for one
    record. *)
Definition bn_keys (layer : LayerInfo) : list string :=
  if type_is "batch_normalization" layer then
    match re_search_number (name layer) with
    | Some num => ["conv2d_" +:+ num; "convolutional_" +:+ num]
    | None =>
        if String.eqb (name layer) "batch_normalization" then ["conv2d"%string]
        else []
    end
  else [].

(** The errors of [write_convolutional_layer] that are about the size of
    an array, the [np.zeros] ones included. *)
Definition is_size_error (e : Error) : bool :=
  match e with
  | ValueError_biases_size_mismatch
  | ValueError_scales_size_mismatch
  | ValueError_mean_size_mismatch
  | ValueError_variance_size_mismatch
  | ValueError_negative_dimensions
  | TypeError_none_dimension => true
  | _ => false
  end.

(** What [validate] asks of one convolution. *)
Definition conv_complete (layer : LayerInfo) : Prop :=
  is_Some (weights layer) /\
  (batch_normalize layer = true ->
   is_Some (bn_gamma layer) /\ is_Some (bn_mean layer) /\
   is_Some (bn_variance layer)).

(** The filters of the convolutions that are flagged as normalized, added
    up. *)
Definition normalized_filters (ls : list LayerInfo) : Z :=
  fold_left
    (fun total layer =>
       total + (if batch_normalize layer then default 0 (filters layer)
                else 0))
    (get_conv_layers ls) 0.

Definition all_digits (s : string) : bool :=
  forallb is_digit (list_ascii_of_string s).

(** A name of ASCII characters only; on such a name the class of digits of
    the regular expression is the ten digits 0 to 9. *)
Definition ascii_only (s : string) : bool :=
  forallb (fun c => (nat_of_ascii c <? 128)%nat) (list_ascii_of_string s).

(** A count that [np.fromfile] takes on every build: the count, and the
    size in bytes of that many float32, fit a C [ssize_t] of 32 bits. *)
Definition count_in_range (count : Z) : Prop :=
  - 2 ^ 31 <= count /\ 4 * count < 2 ^ 31.

(** * Properties *)

(** ** Integer encoding *)

Section HostFacts.

Variable host : ByteOrder.

Lemma length_encode_int (k : nat) (v : Z) :
  length (encode_int host k v) = k.
Proof.
  unfold encode_int. destruct host.
  - apply length_le_split.
  - rewrite length_rev. apply length_le_split.
Qed.

Lemma decode_uint_encode_int (k : nat) (v : Z) :
  decode_uint host (encode_int host k v) = v mod 2 ^ (Z.of_nat k * 8).
Proof.
  unfold decode_uint, encode_int. destruct host.
  - apply le_combine_split.
  - rewrite rev_involutive. apply le_combine_split.
Qed.

Lemma decode_encode_int32 (v : Z) :
  in_int32 v = true -> decode_int host (encode_int host 4 v) = v.
Proof.
  unfold in_int32, decode_int. intros Hv.
  apply andb_true_iff in Hv as [Hlo Hhi].
  apply Z.leb_le in Hlo. apply Z.ltb_lt in Hhi.
  rewrite length_encode_int, decode_uint_encode_int.
  unfold to_signed.
  change (2 ^ (Z.of_nat 4 * 8)) with 4294967296.
  change (2 ^ (8 * Z.of_nat 4 - 1)) with 2147483648.
  change (2 ^ (8 * Z.of_nat 4)) with 4294967296.
  destruct (Z.ltb_spec (v mod 4294967296) 2147483648);
    Z.div_mod_to_equations; lia.
Qed.

Lemma decode_encode_int64 (v : Z) :
  in_int64 v = true -> decode_int host (encode_int host 8 v) = v.
Proof.
  unfold in_int64, decode_int. intros Hv.
  apply andb_true_iff in Hv as [Hlo Hhi].
  apply Z.leb_le in Hlo. apply Z.ltb_lt in Hhi.
  rewrite length_encode_int, decode_uint_encode_int.
  unfold to_signed.
  change (2 ^ (Z.of_nat 8 * 8)) with 18446744073709551616.
  change (2 ^ (8 * Z.of_nat 8 - 1)) with 9223372036854775808.
  change (2 ^ (8 * Z.of_nat 8)) with 18446744073709551616.
  destruct (Z.ltb_spec (v mod 18446744073709551616) 9223372036854775808);
    Z.div_mod_to_equations; lia.
Qed.

(** ** The header reader *)

Lemma np_fromfile_item (itemsize c : nat) (a f : list byte) :
  length a = itemsize ->
  np_fromfile host itemsize (S c) (a ++ f) =
  (decode_int host a :: fst (np_fromfile host itemsize c f),
   snd (np_fromfile host itemsize c f)).
Proof.
  intros Ha. cbn [np_fromfile].
  assert (Hlt : (length (a ++ f) <? itemsize)%nat = false).
  { apply Nat.ltb_ge. rewrite length_app. lia. }
  rewrite Hlt. subst itemsize.
  rewrite drop_app_length, take_app_length.
  destruct (np_fromfile host (length a) c f). reflexivity.
Qed.

Lemma np_fromfile_count (itemsize c : nat) (f : list byte) :
  (length (fst (np_fromfile host itemsize c f)) * itemsize <= length f)%nat.
Proof.
  revert f. induction c as [|c IH]; intros f; cbn [np_fromfile].
  - simpl. lia.
  - destruct (Nat.ltb_spec (length f) itemsize) as [Hlt|Hge].
    + simpl. lia.
    + specialize (IH (drop itemsize f)).
      destruct (np_fromfile host itemsize c (drop itemsize f)) as [xs f'].
      simpl in *. rewrite length_drop in IH. lia.
Qed.

Lemma verify_header_too_short (file : list byte) :
  (length file < 20)%nat ->
  verify_darknet_weights_header host file = Raise ValueError_header_too_short.
Proof.
  intros Hlen. unfold verify_darknet_weights_header.
  pose proof (np_fromfile_count 4 5 file) as Hc.
  destruct (np_fromfile host 4 5 file) as [header rest]. simpl in Hc.
  assert (Hh : (length header <? 5)%nat = true) by (apply Nat.ltb_lt; lia).
  rewrite Hh. reflexivity.
Qed.

Lemma np_fromfile_zero (itemsize : nat) (f : list byte) :
  np_fromfile host itemsize 0 f = ([], f).
Proof. reflexivity. Qed.

Lemma np_fromfile_3 (a b c f : list byte) :
  length a = 4%nat -> length b = 4%nat -> length c = 4%nat ->
  np_fromfile host 4 3 (a ++ b ++ c ++ f) =
  ([decode_int host a; decode_int host b; decode_int host c], f).
Proof.
  intros Ha Hb Hc.
  rewrite !np_fromfile_item, np_fromfile_zero by assumption. reflexivity.
Qed.

Lemma np_fromfile_5 (a b c d e f : list byte) :
  length a = 4%nat -> length b = 4%nat -> length c = 4%nat ->
  length d = 4%nat -> length e = 4%nat ->
  np_fromfile host 4 5 (a ++ b ++ c ++ d ++ e ++ f) =
  ([decode_int host a; decode_int host b; decode_int host c;
    decode_int host d; decode_int host e], f).
Proof.
  intros Ha Hb Hc Hd He.
  rewrite !np_fromfile_item, np_fromfile_zero by assumption. reflexivity.
Qed.

(** Reading back a header that [struct.pack] produced, when the file holds
    at least the five int32 items that the reader asks for first. *)
Lemma verify_header_roundtrip (major minor revision seen : Z)
    (rest : list byte) :
  in_int32 major = true -> in_int32 minor = true ->
  in_int32 revision = true ->
  (if 2 <=? major * 10 + minor then in_int64 seen else in_int32 seen) = true ->
  let seen_width := if 2 <=? major * 10 + minor then 8%nat else 4%nat in
  let header := encode_int host 4 major ++ encode_int host 4 minor ++
                encode_int host 4 revision ++ encode_int host seen_width seen in
  (20 <= length (header ++ rest))%nat ->
  verify_darknet_weights_header host (header ++ rest) =
  Ok (major, minor, revision, seen).
Proof.
  intros Hmaj Hmin Hrev Hseen seen_width header Hlen.
  pose proof (length_encode_int 4 major) as La.
  pose proof (length_encode_int 4 minor) as Lb.
  pose proof (length_encode_int 4 revision) as Lc.
  pose proof (length_encode_int seen_width seen) as Ls.
  unfold verify_darknet_weights_header.
  subst header. rewrite <- !app_assoc in *.
  destruct (2 <=? major * 10 + minor) eqn:Htest; subst seen_width.
  - (* int64 seen: the first read of five int32 splits it in two *)
    set (s := encode_int host 8 seen) in *.
    assert (E5 : np_fromfile host 4 5
                   (encode_int host 4 major ++ encode_int host 4 minor ++
                    encode_int host 4 revision ++ s ++ rest) =
                 ([major; minor; revision;
                   decode_int host (take 4 s); decode_int host (drop 4 s)],
                  rest)).
    { rewrite <- (take_drop 4 s) at 1. rewrite <- !app_assoc.
      rewrite np_fromfile_5; try assumption.
      - rewrite !decode_encode_int32 by assumption. reflexivity.
      - rewrite length_take. lia.
      - rewrite length_drop. lia. }
    rewrite E5. cbn [length Nat.ltb Nat.leb nth]. rewrite Htest.
    rewrite np_fromfile_3 by assumption.
    rewrite np_fromfile_item by assumption.
    subst s. rewrite decode_encode_int64 by assumption.
    reflexivity.
  - (* int32 seen: the fifth item comes from what follows the header *)
    rewrite !length_app in Hlen.
    assert (E5 : np_fromfile host 4 5
                   (encode_int host 4 major ++ encode_int host 4 minor ++
                    encode_int host 4 revision ++ encode_int host 4 seen ++
                    rest) =
                 ([major; minor; revision; seen; decode_int host (take 4 rest)],
                  drop 4 rest)).
    { rewrite <- (take_drop 4 rest) at 1.
      rewrite np_fromfile_5; try assumption.
      - rewrite !decode_encode_int32 by assumption. reflexivity.
      - rewrite length_take. lia. }
    rewrite E5. cbn [length Nat.ltb Nat.leb nth]. rewrite Htest.
    reflexivity.
Qed.

(** [write_header] on an open file, with values that [struct.pack] takes. *)
Lemma write_header_ok (major minor revision seen : Z)
    (w : DarknetWeightsWriter) :
  file_handle w = true ->
  in_int32 major = true -> in_int32 minor = true ->
  in_int32 revision = true ->
  (if 2 <=? major * 10 + minor then in_int64 seen else in_int32 seen) = true ->
  let seen_width := if 2 <=? major * 10 + minor then 8%nat else 4%nat in
  write_header host major minor revision seen w =
  (mkWriter
     (output_file w ++
      encode_int host 4 major ++ encode_int host 4 minor ++
      encode_int host 4 revision ++ encode_int host seen_width seen)
     true (total_bytes_written w + 12 + Z.of_nat seen_width), Ok tt).
Proof.
  intros Hopen Hmaj Hmin Hrev Hseen seen_width.
  unfold write_header, mbind, W_bind, require_open, lift, struct_pack_iii,
    struct_pack_i, struct_pack_q, file_write, add_bytes_written.
  rewrite Hopen, Hmaj, Hmin, Hrev. subst seen_width.
  destruct (2 <=? major * 10 + minor); rewrite Hseen; cbn;
    rewrite Hopen, <- !app_assoc; reflexivity.
Qed.

(** ** The convolution block *)

Lemma f32_bytes_app (a b : list float32) :
  f32_bytes host (a ++ b) = f32_bytes host a ++ f32_bytes host b.
Proof. unfold f32_bytes. apply flat_map_app. Qed.

Ltac unfold_writer H :=
  unfold write_convolutional_layer, mbind, W_bind, mret, W_ret,
    require_open, raise, lift, tofile, file_write, add_bytes_written,
    np_zeros in H.

Ltac reduce_writer H :=
  cbn beta iota zeta delta
    [fst snd negb output_file file_handle total_bytes_written] in H.

Ltac split_writer H :=
  repeat (reduce_writer H;
          match type of H with
          | context [if ?b then _ else _] => destruct b eqn:?
          | context [match ?x with Some _ => _ | None => _ end] =>
              destruct x eqn:?
          end);
  reduce_writer H.

Ltac rewrite_fields :=
  repeat match goal with
         | H : _ = Some _ |- _ => rewrite H
         | H : _ = None |- _ => rewrite H
         end.

Ltac absurd_weights_check :=
  match goal with
  | H : negb (?x =? ?x) = true |- _ =>
      rewrite Z.eqb_refl in H; discriminate H
  end.

(** What is in the file when [write_convolutional_layer] raises: the
    arrays that passed their check before the failing one. The check on the
    weights compares their size with itself and never fails. *)
Lemma write_conv_raise_written (layer : LayerInfo)
    (w w' : DarknetWeightsWriter) (e : Error) :
  write_convolutional_layer host layer w = (w', Raise e) ->
  e <> ValueError_weights_size_mismatch /\
  output_file w' = output_file w ++ f32_bytes host (written_before e layer).
Proof.
  intros H. unfold_writer H. split_writer H.
  all: try discriminate H.
  all: inversion H; subst; clear H.
  all: try absurd_weights_check.
  all: split; [discriminate|].
  all: unfold written_before, biases_or_zeros; rewrite_fields;
    cbn [output_file default from_option id];
    rewrite ?f32_bytes_app, ?app_nil_r, <- ?app_assoc; reflexivity.
Qed.

Lemma type_is_eq (s : string) (layer : LayerInfo) :
  type layer = s -> type_is s layer = true.
Proof. intros E. unfold type_is. rewrite E. apply String.eqb_refl. Qed.


(** The first stage of a block, when the biases in use fit [filters]. *)
Lemma biases_stage (layer : LayerInfo) :
  shape0_differs (biases_or_zeros layer) (filters layer) = false ->
  match biases layer with
  | None => lift (np_zeros (filters layer))
  | Some b => mret b
  end = (mret (biases_or_zeros layer) : W (list float32)).
Proof.
  unfold biases_or_zeros. destruct (biases layer) as [b|]; [reflexivity|].
  destruct (filters layer) as [k|]; [|discriminate].
  cbn [default from_option id np_zeros]. intros Hshape.
  destruct (Z.ltb_spec k 0) as [Hneg|Hpos]; [|reflexivity].
  unfold shape0_differs in Hshape.
  apply negb_false_iff, Z.eqb_eq in Hshape.
  rewrite repeat_length in Hshape. lia.
Qed.

(** C1 (amended): each array of a block is validated right before it is
    written, not before the block. A biases length mismatch is raised with no
    byte of the block in the file; missing normalization arrays or a scale
    length mismatch are raised with the biases in the file; a running-mean
    mismatch with biases and scale in the file; a running-variance mismatch
    with biases, scale and running mean in the file. *)
Theorem block_checks_precede_each_array (layer : LayerInfo)
    (w w' : DarknetWeightsWriter) (e : Error) :
  write_convolutional_layer host layer w = (w', Raise e) ->
  (e = ValueError_biases_size_mismatch -> output_file w' = output_file w) /\
  (e = ValueError_bn_parameters_missing \/
   e = ValueError_scales_size_mismatch ->
   output_file w' =
   output_file w ++ f32_bytes host (biases_or_zeros layer)) /\
  (e = ValueError_mean_size_mismatch ->
   exists scales, bn_gamma layer = Some scales /\
     output_file w' =
     output_file w ++ f32_bytes host (biases_or_zeros layer) ++
     f32_bytes host scales) /\
  (e = ValueError_variance_size_mismatch ->
   exists scales mean,
     bn_gamma layer = Some scales /\ bn_mean layer = Some mean /\
     output_file w' =
     output_file w ++ f32_bytes host (biases_or_zeros layer) ++
     f32_bytes host scales ++ f32_bytes host mean).
Proof.
  intros H. pose proof (write_conv_raise_written _ _ _ _ H) as [_ Hout].
  repeat split.
  - intros ->. rewrite Hout. cbn [written_before]. apply app_nil_r.
  - intros [-> | ->]; exact Hout.
  - intros ->. unfold_writer H. split_writer H; try discriminate H.
    all: eexists; split; [reflexivity|].
    all: rewrite Hout; cbn [written_before]; rewrite_fields;
      cbn [default from_option id]; rewrite f32_bytes_app; reflexivity.
  - intros ->. unfold_writer H. split_writer H; try discriminate H.
    all: do 2 eexists; split; [reflexivity|split; [reflexivity|]].
    all: rewrite Hout; cbn [written_before]; rewrite_fields;
      cbn [default from_option id]; rewrite !f32_bytes_app; reflexivity.
Qed.

(** C5 (amended): a convolution flagged as normalized whose scale, running
    mean or running variance array is absent cannot be written, and
    [validate] rejects a model that holds it. The shift array is not among
    the arrays that are checked. *)
Theorem absent_written_bn_array_is_fatal (layer : LayerInfo)
    (w : DarknetWeightsWriter) :
  batch_normalize layer = true ->
  bn_gamma layer = None \/ bn_mean layer = None \/ bn_variance layer = None ->
  (exists e, snd (write_convolutional_layer host layer w) = Raise e) /\
  (file_handle w = true -> type layer = "convolutional"%string ->
   is_Some (weights layer) ->
   shape0_differs (biases_or_zeros layer) (filters layer) = false ->
   snd (write_convolutional_layer host layer w) =
   Raise ValueError_bn_parameters_missing) /\
  (forall ls shape, In layer (get_conv_layers ls) ->
                    fst (validate ls shape) = false).
Proof.
  intros Hbn Habsent. repeat split.
  - destruct (write_convolutional_layer host layer w) as [w' [[]|e]] eqn:H;
      [exfalso|eauto].
    unfold_writer H. rewrite Hbn in H. split_writer H; try discriminate H.
    all: destruct Habsent as [?|[?|?]]; congruence.
  - intros Hopen Htype [ws Hws] Hshape.
    apply type_is_eq in Htype.
    destruct (write_convolutional_layer host layer w) as [w' o] eqn:H.
    unfold write_convolutional_layer in H. rewrite Hws in H.
    cbv zeta in H. rewrite biases_stage in H by assumption.
    unfold_writer H. rewrite Hopen, Htype, Hbn, Hshape in H.
    split_writer H; inversion H; subst; try reflexivity.
    all: destruct Habsent as [?|[?|?]]; congruence.
  - intros ls shape Hin. unfold validate. cbn [fst].
    apply Nat.eqb_neq. rewrite !length_app.
    assert (Hpos : (0 < length (flat_map validate_conv (get_conv_layers ls)))%nat).
    { apply in_split in Hin as (l1 & l2 & ->).
      rewrite flat_map_app, length_app. cbn [flat_map].
      rewrite length_app. unfold validate_conv at 2. rewrite Hbn.
      destruct Habsent as [E|[E|E]]; rewrite E; cbn [is_None];
        rewrite !length_app; cbn [length]; lia. }
    lia.
Qed.


(** ** The header *)

(** C4: the header is major, minor, revision as int32 followed by seen, as
    int64 when [major * 10 + minor >= 2] and as int32 otherwise; versions 0.1
    and 0.2 give a seen field of 4 and of 8 bytes; the reader takes the same
    branch and returns the four values that were written. *)
Theorem header_seen_width_follows_version (major minor revision seen : Z)
    (w : DarknetWeightsWriter) :
  file_handle w = true ->
  in_int32 major = true -> in_int32 minor = true ->
  in_int32 revision = true ->
  (if 2 <=? major * 10 + minor then in_int64 seen else in_int32 seen) = true ->
  let seen_width := if 2 <=? major * 10 + minor then 8%nat else 4%nat in
  let seen_data := encode_int host seen_width seen in
  let header := encode_int host 4 major ++ encode_int host 4 minor ++
                encode_int host 4 revision ++ seen_data in
  write_header host major minor revision seen w =
    (mkWriter (output_file w ++ header) true
       (total_bytes_written w + 12 + Z.of_nat seen_width), Ok tt) /\
  length header = (12 + seen_width)%nat /\
  (major = 0 -> minor = 1 -> length seen_data = 4%nat) /\
  (major = 0 -> minor = 2 -> length seen_data = 8%nat) /\
  (forall rest, (20 <= length (header ++ rest))%nat ->
     verify_darknet_weights_header host (header ++ rest) =
     Ok (major, minor, revision, seen)).
Proof.
  intros Hopen Hmaj Hmin Hrev Hseen seen_width seen_data header.
  split; [|split; [|split; [|split]]].
  - apply write_header_ok; assumption.
  - unfold header, seen_data. rewrite !length_app, !length_encode_int. lia.
  - intros -> ->. unfold seen_data. apply length_encode_int.
  - intros -> ->. unfold seen_data. apply length_encode_int.
  - intros rest Hlen. apply verify_header_roundtrip; assumption.
Qed.

(** C10: the reader rejects every file shorter than 20 bytes, whatever its
    version fields; so the 16-byte file that [write_model] produces for an
    old-format version and no convolution is rejected, also when up to three
    bytes follow it. *)
Theorem short_file_header_unreadable :
  (forall file, (length file < 20)%nat ->
     verify_darknet_weights_header host file =
     Raise ValueError_header_too_short) /\
  (forall major minor revision seen tail,
     in_int32 major = true -> in_int32 minor = true ->
     in_int32 revision = true -> in_int32 seen = true ->
     major * 10 + minor < 2 -> (length tail < 4)%nat ->
     exists header,
       write_model host [] major minor revision seen new_writer =
         (mkWriter header false 16, Ok tt) /\
       length header = 16%nat /\
       verify_darknet_weights_header host (header ++ tail) =
         Raise ValueError_header_too_short).
Proof.
  split; [exact verify_header_too_short|].
  intros major minor revision seen tail Hmaj Hmin Hrev Hseen Hold Htail.
  assert (Htest : (2 <=? major * 10 + minor) = false)
    by (apply Z.leb_gt; assumption).
  exists (encode_int host 4 major ++ encode_int host 4 minor ++
          encode_int host 4 revision ++ encode_int host 4 seen).
  split; [|split].
  - unfold write_model, try_finally_close, open, close, mbind, W_bind.
    pose proof (write_header_ok major minor revision seen (mkWriter [] true 0))
      as Hw.
    rewrite Htest in Hw. cbn zeta in Hw. rewrite Hw by (assumption || reflexivity).
    reflexivity.
  - rewrite !length_app, !length_encode_int. reflexivity.
  - apply verify_header_too_short.
    rewrite !length_app, !length_encode_int. lia.
Qed.

End HostFacts.

(** ** The writer at concrete records (little-endian host) *)

(** C1 (counterexample): the scale array of [short_scales_layer] fails its
    length check, and the four bytes of the biases are in the file by then. *)
Lemma scales_check_fails_after_biases_written :
  let r := write_convolutional_layer LittleEndian short_scales_layer
             open_writer in
  snd r = Raise ValueError_scales_size_mismatch /\
  output_file (fst r) = f32_bytes LittleEndian [F32 1073741824] /\
  output_file (fst r) <> output_file open_writer.
Proof.
  split; [reflexivity|split; [reflexivity|]].
  vm_compute. discriminate.
Qed.

(** The statement above at [short_scales_layer], whose scale check fails. *)
Lemma block_checks_precede_each_array_witness :
  output_file
    (fst (write_convolutional_layer LittleEndian short_scales_layer
            open_writer)) =
  output_file open_writer ++
  f32_bytes LittleEndian (biases_or_zeros short_scales_layer).
Proof.
  destruct (block_checks_precede_each_array LittleEndian short_scales_layer
              open_writer
              (fst (write_convolutional_layer LittleEndian short_scales_layer
                      open_writer))
              ValueError_scales_size_mismatch eq_refl) as (_ & H & _).
  apply H. right. reflexivity.
Defined.

(** C3: the check on the weights compares their size with itself, so no
    record ever raises the weights size mismatch; [one_weight_layer] declares
    54 weights and holds one, and its block is written without an error, the
    single weight included. *)
Theorem weights_count_never_checked :
  (forall host layer w,
     snd (write_convolutional_layer host layer w) <>
     Raise ValueError_weights_size_mismatch) /\
  declared_weight_count one_weight_layer = Some 54 /\
  option_map np_size (weights one_weight_layer) = Some 1 /\
  write_convolutional_layer LittleEndian one_weight_layer open_writer =
  (mkWriter (f32_bytes LittleEndian [F32 0; F32 0] ++
             f32_bytes LittleEndian [F32 1065353216]) true 12, Ok tt).
Proof.
  split; [|repeat split].
  intros host layer w.
  destruct (write_convolutional_layer host layer w) as [w' [[]|e]] eqn:H;
    cbn [snd]; [discriminate|].
  apply write_conv_raise_written in H as [Hne _]. congruence.
Qed.

(** C5 (counterexample): [no_shift_layer] is flagged as normalized and has
    no shift array; it is written without an error and [validate] accepts
    it. *)
Lemma absent_shift_is_not_an_error :
  batch_normalize no_shift_layer = true /\
  bn_beta no_shift_layer = None /\
  snd (write_convolutional_layer LittleEndian no_shift_layer open_writer) =
    Ok tt /\
  validate [no_shift_layer] (Some (416, 416, 3)) = (true, []).
Proof. repeat split. Qed.

(** The statement above at [no_scales_layer]. *)
Lemma absent_written_bn_array_is_fatal_witness :
  snd (write_convolutional_layer LittleEndian no_scales_layer open_writer) =
    Raise ValueError_bn_parameters_missing /\
  fst (validate [no_scales_layer] (Some (416, 416, 3))) = false.
Proof.
  destruct (absent_written_bn_array_is_fatal LittleEndian no_scales_layer
              open_writer eq_refl (or_introl eq_refl)) as (_ & Hw & Hv).
  split.
  - apply Hw; [reflexivity|reflexivity|eexists; reflexivity|reflexivity].
  - apply Hv. left. reflexivity.
Defined.


(** The statement above at version 0.2 with seen = 7. *)
Lemma header_seen_width_follows_version_witness :
  write_header LittleEndian 0 2 0 7 open_writer =
    (mkWriter
       (output_file open_writer ++
        encode_int LittleEndian 4 0 ++ encode_int LittleEndian 4 2 ++
        encode_int LittleEndian 4 0 ++ encode_int LittleEndian 8 7)
       true (total_bytes_written open_writer + 12 + Z.of_nat 8), Ok tt) /\
  verify_darknet_weights_header LittleEndian
    ((encode_int LittleEndian 4 0 ++ encode_int LittleEndian 4 2 ++
      encode_int LittleEndian 4 0 ++ encode_int LittleEndian 8 7) ++ []) =
    Ok (0, 2, 0, 7).
Proof.
  destruct (header_seen_width_follows_version LittleEndian 0 2 0 7
              open_writer eq_refl eq_refl eq_refl eq_refl eq_refl)
    as (Hw & _ & _ & _ & Hr).
  split; [exact Hw|].
  apply Hr. vm_compute. lia.
Defined.

(** The statement above at the empty file and at the header of version
    0.1. *)
Lemma short_file_header_unreadable_witness :
  verify_darknet_weights_header LittleEndian [] =
    Raise ValueError_header_too_short /\
  exists header,
    write_model LittleEndian [] 0 1 0 0 new_writer =
      (mkWriter header false 16, Ok tt) /\
    length header = 16%nat /\
    verify_darknet_weights_header LittleEndian (header ++ []) =
      Raise ValueError_header_too_short.
Proof.
  destruct (short_file_header_unreadable LittleEndian) as [Hshort Hold].
  split.
  - apply Hshort. cbn. lia.
  - apply (Hold 0 1 0 0 [] eq_refl eq_refl eq_refl eq_refl); cbn; lia.
Defined.

(** ** The reconciler *)

Lemma type_is_bn_not_conv (x : LayerInfo) :
  type_is "batch_normalization" x = true ->
  type_is "convolutional" x = false.
Proof.
  unfold type_is. intros H. apply String.eqb_eq in H. rewrite H. reflexivity.
Qed.

Lemma fuse_name (c bn : LayerInfo) : name (fuse c bn) = name c.
Proof. reflexivity. Qed.

Lemma fuse_type (c bn : LayerInfo) : type (fuse c bn) = type c.
Proof. reflexivity. Qed.

Lemma fuse_fuse (c bn : LayerInfo) : fuse (fuse c bn) bn = fuse c bn.
Proof.
  unfold fuse at 1 3. cbn [name type index filters channels kernel_size
    stride padding groups activation weights pool_size pool_stride layers
    input_shape output_shape fuse]. f_equal.
  unfold biases_none_or_zero at 1. cbn [biases fuse].
  destruct (biases_none_or_zero c) eqn:Hc.
  - destruct (bn_beta bn) as [b|]; [destruct (negb _)|]; reflexivity.
  - unfold biases_none_or_zero in Hc. rewrite Hc. reflexivity.
Qed.

Lemma reconcile_at_name d ls i c : name (reconcile_at d ls i c) = name c.
Proof.
  unfold reconcile_at.
  destruct (type_is _ c); [|reflexivity].
  destruct (find_bn_layer d ls i c); [|reflexivity].
  destruct (ls !! n); reflexivity.
Qed.

Lemma reconcile_at_type d ls i c : type (reconcile_at d ls i c) = type c.
Proof.
  unfold reconcile_at.
  destruct (type_is _ c); [|reflexivity].
  destruct (find_bn_layer d ls i c); [|reflexivity].
  destruct (ls !! n); reflexivity.
Qed.

Lemma reconcile_at_not_conv d ls i c :
  type_is "convolutional" c = false -> reconcile_at d ls i c = c.
Proof. unfold reconcile_at. intros ->. reflexivity. Qed.

Lemma build_bn_layers_from_refs (ls : list LayerInfo) :
  forall (p0 : nat) (m : gmap string nat) key p,
    build_bn_layers_from p0 ls m !! key = Some p ->
    m !! key = Some p \/
    (p0 <= p)%nat /\
    exists bn, ls !! (p - p0)%nat = Some bn /\
               type_is "batch_normalization" bn = true.
Proof.
  induction ls as [|layer rest IH]; intros p0 m key p H; cbn in H.
  - left; exact H.
  - apply IH in H as [H|(Hle & bn & Hbn & Hty)].
    + unfold bn_layers_add in H.
      destruct (type_is "batch_normalization" layer) eqn:Hty; [|left; exact H].
      assert (Hhere : (p0 <= p0)%nat /\
                exists bn, (layer :: rest) !! (p0 - p0)%nat = Some bn /\
                           type_is "batch_normalization" bn = true).
      { split; [lia|]. exists layer. rewrite Nat.sub_diag. split; [reflexivity|assumption]. }
      destruct (re_search_number (name layer)) as [num|].
      * rewrite lookup_insert in H. case_decide.
        { injection H as <-. right; exact Hhere. }
        rewrite lookup_insert in H. case_decide.
        { injection H as <-. right; exact Hhere. }
        left; exact H.
      * destruct (String.eqb (name layer) "batch_normalization");
          [|left; exact H].
        rewrite lookup_insert in H. case_decide.
        { injection H as <-. right; exact Hhere. }
        left; exact H.
    + right. split; [lia|]. exists bn. split; [|assumption].
      replace (p - p0)%nat with (S (p - S p0)) by lia. exact Hbn.
Qed.

Lemma build_bn_layers_refs (ls : list LayerInfo) :
  refs_to_bn (build_bn_layers ls) ls.
Proof.
  intros key p H. unfold build_bn_layers in H.
  apply build_bn_layers_from_refs in H as [H|(_ & bn & Hbn & Hty)].
  - rewrite lookup_empty in H. discriminate.
  - rewrite Nat.sub_0_r in Hbn. eauto.
Qed.

(** [bn_layers] only reads the names and the types of the records. *)
Lemma build_bn_layers_from_ext (ls ls' : list LayerInfo) :
  Forall2 (fun a b => name a = name b /\ type a = type b) ls ls' ->
  forall p0 m, build_bn_layers_from p0 ls m = build_bn_layers_from p0 ls' m.
Proof.
  induction 1 as [|a b ls ls' [Hn Ht] _ IH]; intros p0 m; [reflexivity|].
  cbn. rewrite IH. f_equal.
  unfold bn_layers_add, type_is. rewrite Hn, Ht. reflexivity.
Qed.


Lemma partly_done_lookup d ls k j :
  partly_done d ls k !! j =
  (fun c => if decide (j < k)%nat then reconcile_at d ls j c else c)
    <$> ls !! j.
Proof. unfold partly_done. apply list_lookup_imap. Qed.

Lemma partly_done_length d ls k : length (partly_done d ls k) = length ls.
Proof. unfold partly_done. apply length_imap. Qed.

Lemma partly_done_zero d ls : partly_done d ls 0 = ls.
Proof.
  apply list_eq. intros j. rewrite partly_done_lookup.
  destruct (ls !! j); [|reflexivity]. cbn. case_decide; [lia|reflexivity].
Qed.

(** While the loop runs, a batch normalization is what it was. *)
Lemma partly_done_bn d ls k p bn :
  ls !! p = Some bn -> type_is "batch_normalization" bn = true ->
  partly_done d ls k !! p = Some bn.
Proof.
  intros Hp Hty. rewrite partly_done_lookup, Hp. cbn.
  case_decide; [|reflexivity].
  rewrite reconcile_at_not_conv by (apply type_is_bn_not_conv; exact Hty).
  reflexivity.
Qed.

Lemma partly_done_type d ls k j :
  type <$> partly_done d ls k !! j = type <$> ls !! j.
Proof.
  rewrite partly_done_lookup. destruct (ls !! j); [|reflexivity]. cbn.
  case_decide; [rewrite reconcile_at_type|]; reflexivity.
Qed.

(** The lookup of an iteration gives the same reference on the list as the
    loop has left it and on the list before the loop. *)
Lemma find_bn_layer_partly_done d ls k i c :
  find_bn_layer d (partly_done d ls k) i c = find_bn_layer d ls i c.
Proof.
  unfold find_bn_layer. destruct (d !! name c); [reflexivity|].
  rewrite partly_done_length. case_decide; [|reflexivity].
  pose proof (partly_done_type d ls k (i + 1)) as Hty.
  destruct (partly_done d ls k !! (i + 1)%nat) as [a|],
           (ls !! (i + 1)%nat) as [b|]; cbn in Hty; try discriminate;
    [|reflexivity].
  unfold type_is. injection Hty as ->. reflexivity.
Qed.

Lemma find_bn_layer_refs d ls i c p :
  refs_to_bn d ls -> find_bn_layer d ls i c = Some p ->
  exists bn, ls !! p = Some bn /\ type_is "batch_normalization" bn = true.
Proof.
  intros Hd. unfold find_bn_layer.
  destruct (d !! name c) as [q|] eqn:Hq.
  - intros [= <-]. eapply Hd, Hq.
  - case_decide; [|discriminate].
    destruct (ls !! (i + 1)%nat) as [next_layer|] eqn:Hnext; [|discriminate].
    destruct (type_is "batch_normalization" next_layer) eqn:Hty;
      [|discriminate].
    intros [= <-]. eauto.
Qed.

(** One iteration of the second loop. *)
Lemma match_step_partly_done d ls k :
  refs_to_bn d ls ->
  match_step d (partly_done d ls k) k = partly_done d ls (S k).
Proof.
  intros Hd. apply list_eq. intros j.
  rewrite (partly_done_lookup d ls (S k) j).
  unfold match_step. rewrite (partly_done_lookup d ls k k).
  destruct (ls !! k) as [c|] eqn:Hk; cbn.
  - case_decide; [lia|].
    assert (Hother : j <> k ->
              partly_done d ls k !! j =
              (fun c0 => if decide (j < S k)%nat
                         then reconcile_at d ls j c0 else c0) <$> ls !! j).
    { intros Hne. rewrite partly_done_lookup.
      destruct (ls !! j); [|reflexivity]. cbn.
      repeat case_decide; try lia; reflexivity. }
    assert (Hsame : reconcile_at d ls k c = c ->
              partly_done d ls k !! j =
              (fun c0 => if decide (j < S k)%nat
                         then reconcile_at d ls j c0 else c0) <$> ls !! j).
    { intros Hc. destruct (decide (j = k)) as [->|Hne]; [|auto].
      rewrite partly_done_lookup, Hk. cbn.
      repeat case_decide; try lia. rewrite Hc. reflexivity. }
    unfold reconcile_at in Hsame |- *.
    destruct (type_is "convolutional" c) eqn:Hconv; [|auto].
    rewrite find_bn_layer_partly_done.
    destruct (find_bn_layer d ls k c) as [p|] eqn:Hfind; [|auto].
    destruct (find_bn_layer_refs _ _ _ _ _ Hd Hfind) as (bn & Hp & Hty).
    rewrite (partly_done_bn d ls k p bn Hp Hty).
    rewrite Hp in Hsame.
    destruct (decide (j = k)) as [->|Hne].
    + rewrite list_lookup_insert_eq
        by (rewrite partly_done_length; eapply lookup_lt_Some, Hk).
      rewrite Hk. cbn. case_decide; [|lia].
      unfold reconcile_at. rewrite Hconv, Hfind, Hp. reflexivity.
    + rewrite list_lookup_insert_ne by congruence. auto.
  - rewrite partly_done_lookup.
    destruct (ls !! j) as [c|] eqn:Hj; [|reflexivity]. cbn.
    assert (j <> k) by congruence.
    pose proof (lookup_lt_Some _ _ _ Hj).
    apply lookup_ge_None in Hk.
    repeat case_decide; try lia; reflexivity.
Qed.

Lemma fold_match_step d ls :
  refs_to_bn d ls ->
  forall m k,
    fold_left (match_step d) (seq k m) (partly_done d ls k) =
    partly_done d ls (k + m).
Proof.
  intros Hd. induction m as [|m IH]; intros k; cbn [seq fold_left].
  - rewrite Nat.add_0_r. reflexivity.
  - rewrite match_step_partly_done by assumption.
    rewrite IH. f_equal. lia.
Qed.

(** The second loop as a whole: every position holds what its own iteration
    computes from the list as it was before the loop. *)
Lemma match_conv_bn_pairs_lookup (ls : list LayerInfo) (i : nat) :
  _match_conv_bn_pairs ls !! i =
  reconcile_at (build_bn_layers ls) ls i <$> ls !! i.
Proof.
  unfold _match_conv_bn_pairs.
  rewrite <- (partly_done_zero (build_bn_layers ls) ls) at 3.
  rewrite fold_match_step by apply build_bn_layers_refs.
  rewrite partly_done_lookup.
  destruct (ls !! i) as [c|] eqn:Hi; [|reflexivity]. cbn.
  apply lookup_lt_Some in Hi. case_decide; [reflexivity|lia].
Qed.

Lemma match_conv_bn_pairs_length (ls : list LayerInfo) :
  length (_match_conv_bn_pairs ls) = length ls.
Proof.
  unfold _match_conv_bn_pairs.
  rewrite <- (partly_done_zero (build_bn_layers ls) ls) at 3.
  rewrite fold_match_step by apply build_bn_layers_refs.
  apply partly_done_length.
Qed.

Lemma match_conv_bn_pairs_partly_done (ls : list LayerInfo) :
  _match_conv_bn_pairs ls =
  partly_done (build_bn_layers ls) ls (length ls).
Proof.
  apply list_eq. intros i.
  rewrite match_conv_bn_pairs_lookup, partly_done_lookup.
  destruct (ls !! i) as [c|] eqn:Hi; [|reflexivity]. cbn.
  apply lookup_lt_Some in Hi. case_decide; [reflexivity|lia].
Qed.

Lemma find_bn_layer_name d ls i c c' :
  name c = name c' -> find_bn_layer d ls i c = find_bn_layer d ls i c'.
Proof. unfold find_bn_layer. intros ->. reflexivity. Qed.

Lemma build_bn_layers_match_conv_bn_pairs (ls : list LayerInfo) :
  build_bn_layers (_match_conv_bn_pairs ls) = build_bn_layers ls.
Proof.
  unfold build_bn_layers. apply build_bn_layers_from_ext.
  apply Forall2_same_length_lookup. split.
  - apply match_conv_bn_pairs_length.
  - intros i x y Hx Hy. rewrite match_conv_bn_pairs_lookup, Hy in Hx.
    injection Hx as <-.
    rewrite reconcile_at_name, reconcile_at_type. split; reflexivity.
Qed.

(** C9: a second run of the reconciler on its own result changes no
    record: the same partners are found, the normalization arrays copied
    again are the same, and biases taken from the shift stay as they are. *)
Theorem reconciler_second_run_changes_nothing (ls : list LayerInfo) :
  _match_conv_bn_pairs (_match_conv_bn_pairs ls) = _match_conv_bn_pairs ls.
Proof.
  apply list_eq. intros i.
  rewrite (match_conv_bn_pairs_lookup (_match_conv_bn_pairs ls)).
  rewrite build_bn_layers_match_conv_bn_pairs.
  pose proof (build_bn_layers_refs ls) as Hd.
  set (d := build_bn_layers ls) in *.
  rewrite match_conv_bn_pairs_lookup. fold d.
  destruct (ls !! i) as [c|] eqn:Hi; [|reflexivity]. cbn. f_equal.
  rewrite match_conv_bn_pairs_partly_done. fold d.
  unfold reconcile_at at 1.
  unfold type_is at 1. rewrite reconcile_at_type. fold (type_is "convolutional" c).
  rewrite find_bn_layer_partly_done.
  rewrite (find_bn_layer_name d ls i _ c) by apply reconcile_at_name.
  unfold reconcile_at.
  destruct (type_is "convolutional" c); [|reflexivity].
  destruct (find_bn_layer d ls i c) as [p|] eqn:Hfind; [|reflexivity].
  destruct (find_bn_layer_refs _ _ _ _ _ Hd Hfind) as (bn & Hp & Hty).
  rewrite (partly_done_bn d ls _ p bn Hp Hty), Hp.
  apply fuse_fuse.
Qed.




(** C6 (amended): a convolution that has no partner by name is fused with
    the record right after it in the list when that record is a batch
    normalization, and is left as it is otherwise. Whether another
    convolution has already taken that batch normalization is not looked
    at. *)
Theorem positional_fallback_takes_next_record (ls : list LayerInfo)
    (i : nat) (current : LayerInfo) :
  ls !! i = Some current ->
  type current = "convolutional"%string ->
  build_bn_layers ls !! name current = None ->
  parse_layers ls !! i =
  Some match ls !! (i + 1)%nat with
       | Some next_layer =>
           if type_is "batch_normalization" next_layer
           then fuse current next_layer else current
       | None => current
       end.
Proof.
  intros Hi Hty Hname. unfold parse_layers.
  rewrite match_conv_bn_pairs_lookup, Hi. cbn. f_equal.
  unfold reconcile_at, find_bn_layer.
  rewrite (type_is_eq _ _ Hty), Hname.
  destruct (ls !! (i + 1)%nat) as [next_layer|] eqn:Hnext.
  - pose proof (lookup_lt_Some _ _ _ Hnext).
    case_decide; [|lia].
    destruct (type_is "batch_normalization" next_layer); [|reflexivity].
    rewrite Hnext. reflexivity.
  - case_decide; reflexivity.
Qed.

(** ** The reconciler at concrete lists *)



(** C6 (counterexample): in [two_convs_one_bn] the convolution "head" has no
    partner by name; the batch normalization after it has already been taken
    by "conv2d_5", by name, in the iteration before; "head" is fused with it
    all the same. *)
Lemma fallback_takes_consumed_normalization :
  let d := build_bn_layers two_convs_one_bn in
  let c0 := LayerInfo_default "conv2d_5" "convolutional" 0 in
  let c1 := LayerInfo_default "head" "convolutional" 1 in
  let bn := bn_record "batch_normalization_5" 2 11 12 13 14 in
  d !! "head"%string = None /\
  d !! "conv2d_5"%string = Some 2%nat /\
  find_bn_layer d two_convs_one_bn 0 c0 = Some 2%nat /\
  find_bn_layer d two_convs_one_bn 1 c1 = Some 2%nat /\
  parse_layers two_convs_one_bn = [fuse c0 bn; fuse c1 bn; bn].
Proof. repeat split. Qed.

(** The statement above at the convolution "head" of [two_convs_one_bn]. *)
Lemma positional_fallback_takes_next_record_witness :
  parse_layers two_convs_one_bn !! 1%nat =
  Some (fuse (LayerInfo_default "head" "convolutional" 1)
          (bn_record "batch_normalization_5" 2 11 12 13 14)).
Proof.
  apply (positional_fallback_takes_next_record two_convs_one_bn 1
           (LayerInfo_default "head" "convolutional" 1)
           eq_refl eq_refl eq_refl).
Defined.

(** ** The configuration generator *)

Lemma write_layer_other_type (layer : LayerInfo) :
  type_is "convolutional" layer = false ->
  type_is "maxpool" layer = false ->
  type_is "upsample" layer = false ->
  type_is "route" layer = false ->
  type_is "shortcut" layer = false ->
  write_layer layer = EmptyString.
Proof. unfold write_layer. intros -> -> -> -> ->. reflexivity. Qed.

(** C7: [write_layer] has no case for a 'yolo' record, so [generate] emits
    the [net] section alone for a list that holds one, although it counts the
    record as written; the [yolo] section of [write_yolo_layer] never
    reaches the file. *)
Theorem yolo_record_gets_no_section :
  write_layer yolo_record = EmptyString /\
  generate [yolo_record] (416, 416, 3) 1 1 =
    (write_net_section (416, 416, 3) 1 1 "0.9" "0.0005", 1) /\
  write_yolo_layer 80 None None <> EmptyString.
Proof.
  split; [reflexivity|split; [reflexivity|]]. discriminate.
Qed.

(** * Further properties *)

(** ** The writer: what a block holds, and how the file grows *)

Ltac unfold_block H :=
  unfold write_convolutional_layer, mbind, W_bind, mret, W_ret,
    require_open, raise, lift, tofile, file_write, add_bytes_written,
    np_zeros in H.

Ltac reduce_block H :=
  cbn beta iota zeta delta
    [fst snd negb output_file file_handle total_bytes_written] in H.

Ltac split_block H :=
  repeat (reduce_block H;
          match type of H with
          | context [if ?b then _ else _] => destruct b eqn:?
          | context [match ?x with Some _ => _ | None => _ end] =>
              destruct x eqn:?
          end);
  reduce_block H.

Ltac use_fields :=
  repeat match goal with
         | H : _ = Some _ |- _ => rewrite H
         | H : _ = None |- _ => rewrite H
         | H : batch_normalize _ = _ |- _ => rewrite H
         end.

Section WriterFacts.

Variable host : ByteOrder.

Lemma length_f32_bytes (a : list float32) :
  length (f32_bytes host a) = (4 * length a)%nat.
Proof.
  unfold f32_bytes. induction a as [|x a IH]; [reflexivity|].
  cbn [flat_map length]. rewrite length_app, length_encode_int, IH. lia.
Qed.

Lemma shape0_same (a : list float32) (n : option Z) :
  shape0_differs a n = false -> n = Some (Z.of_nat (length a)).
Proof.
  unfold shape0_differs. destruct n as [k|]; [|discriminate].
  intros H. apply negb_false_iff, Z.eqb_eq in H. congruence.
Qed.

Ltac use_shapes :=
  repeat match goal with
         | H : shape0_differs _ (Some _) = false |- _ =>
             apply shape0_same in H; injection H as H
         end.

(** What a call of [write_convolutional_layer] that returns has done. *)
Lemma write_conv_return (layer : LayerInfo)
    (w w' : DarknetWeightsWriter) :
  write_convolutional_layer host layer w = (w', Ok tt) ->
  exists n ws,
    filters layer = Some n /\ weights layer = Some ws /\
    Z.of_nat (length (biases_or_zeros layer)) = n /\
    (batch_normalize layer = true ->
     exists g m v,
       bn_gamma layer = Some g /\ bn_mean layer = Some m /\
       bn_variance layer = Some v /\
       Z.of_nat (length g) = n /\ Z.of_nat (length m) = n /\
       Z.of_nat (length v) = n) /\
    output_file w' = output_file w ++ f32_bytes host (block_arrays layer) /\
    Z.of_nat (length (block_arrays layer)) =
      n + (if batch_normalize layer then 3 * n else 0) +
      Z.of_nat (length ws) /\
    total_bytes_written w' =
      total_bytes_written w + 4 * Z.of_nat (length (block_arrays layer)).
Proof.
  intros H. destruct (filters layer) as [n|] eqn:Hn.
  2: { exfalso. unfold_block H. rewrite Hn in H.
       split_block H; try discriminate H.
       all: match goal with
            | E : shape0_differs _ None = false |- _ => discriminate E
            end. }
  exists n. unfold_block H. rewrite Hn in H.
  split_block H; try discriminate H.
  all: inversion H; subst; clear H.
  all: use_shapes.
  all: unfold block_arrays, biases_or_zeros; use_fields;
    cbn [default from_option id output_file total_bytes_written];
    unfold nbytes; rewrite ?length_app, ?repeat_length in *.
  all: eexists; split; [reflexivity|]; split; [reflexivity|].
  all: split; [lia|]; split;
    [first [discriminate
           |intros _; do 3 eexists; repeat split; try reflexivity; lia]|].
  all: split; [rewrite ?f32_bytes_app, <- ?app_assoc; reflexivity|].
  all: split; [cbn [length]; lia|cbn [length]; lia].
Qed.

(** X1: when [write_convolutional_layer] returns, the record has its
    filter count and weights, every array written has [filters] elements,
    and the file has grown by biases (or zeros), then scale, running mean
    and running variance when normalized, then the weights:
    4 * (n + 3n + weights) bytes, 4 * (n + weights) without normalization. *)
Theorem block_layout_on_return (layer : LayerInfo)
    (w w' : DarknetWeightsWriter) :
  write_convolutional_layer host layer w = (w', Ok tt) ->
  exists n ws,
    filters layer = Some n /\ weights layer = Some ws /\
    Z.of_nat (length (biases_or_zeros layer)) = n /\
    (batch_normalize layer = true ->
     exists g m v,
       bn_gamma layer = Some g /\ bn_mean layer = Some m /\
       bn_variance layer = Some v /\
       Z.of_nat (length g) = n /\ Z.of_nat (length m) = n /\
       Z.of_nat (length v) = n) /\
    output_file w' = output_file w ++ f32_bytes host (block_arrays layer) /\
    Z.of_nat (length (block_arrays layer)) =
      n + (if batch_normalize layer then 3 * n else 0) +
      Z.of_nat (length ws) /\
    total_bytes_written w' =
      total_bytes_written w + 4 * Z.of_nat (length (block_arrays layer)).
Proof. apply write_conv_return. Qed.

Lemma writer_eta (w : DarknetWeightsWriter) :
  w = mkWriter (output_file w ++ []) (file_handle w)
        (total_bytes_written w + Z.of_nat (length (@nil byte))).
Proof.
  destruct w as [o h t]. cbn. rewrite app_nil_r, Z.add_0_r. reflexivity.
Qed.

Lemma writer_eta_handle (w : DarknetWeightsWriter) (h : bool) :
  file_handle w = h ->
  w = mkWriter (output_file w ++ []) h
        (total_bytes_written w + Z.of_nat (length (@nil byte))).
Proof. intros <-. apply writer_eta. Qed.

Lemma appends_ret {A} (a : A) : appends (mret a : W A).
Proof. intros w. exists []. apply writer_eta. Qed.

Lemma appends_raise {A} (e : Error) : appends (raise e : W A).
Proof. intros w. exists []. apply writer_eta. Qed.

Lemma appends_lift {A} (o : outcome A) : appends (lift o).
Proof. intros w. exists []. apply writer_eta. Qed.

Lemma appends_require_open : appends require_open.
Proof.
  intros w. exists []. unfold require_open.
  destruct (file_handle w) eqn:Hopen; apply writer_eta_handle, Hopen.
Qed.

Lemma appends_bind {A B} (m : W A) (k : A -> W B) :
  appends m -> (forall a, appends (k a)) -> appends (m ≫= k).
Proof.
  intros Hm Hk w. destruct (Hm w) as [bs Hbs].
  unfold mbind, W_bind. destruct (m w) as [w1 [a|e]]; cbn [fst] in Hbs.
  - destruct (Hk a w1) as [bs2 H2]. exists (bs ++ bs2).
    rewrite H2, Hbs. cbn [output_file file_handle total_bytes_written].
    rewrite length_app, app_assoc. f_equal. lia.
  - exists bs. exact Hbs.
Qed.

Lemma appends_counted_write {A} (bs : list byte) (n : Z) (k : W A) :
  Z.of_nat (length bs) = n -> appends k ->
  appends (file_write bs ;; add_bytes_written n ;; k).
Proof.
  intros Hn Hk w. unfold mbind, W_bind, file_write, add_bytes_written.
  cbn [output_file file_handle total_bytes_written].
  destruct (Hk (mkWriter (output_file w ++ bs) (file_handle w)
                  (total_bytes_written w + n))) as [bs2 H2].
  exists (bs ++ bs2). rewrite H2.
  cbn [output_file file_handle total_bytes_written].
  rewrite length_app, app_assoc. f_equal. lia.
Qed.

Lemma appends_tofile {A} (a : list float32) (k : W A) :
  appends k ->
  appends (tofile host a ;; add_bytes_written (nbytes a) ;; k).
Proof.
  intros Hk. unfold tofile. apply appends_counted_write; [|exact Hk].
  rewrite length_f32_bytes. unfold nbytes. lia.
Qed.

Lemma appends_tofile_last (a : list float32) :
  appends (tofile host a ;; add_bytes_written (nbytes a)).
Proof.
  intros w. exists (f32_bytes host a).
  unfold mbind, W_bind, tofile, file_write, add_bytes_written. cbn.
  rewrite length_f32_bytes. unfold nbytes. f_equal. lia.
Qed.

Ltac appends_step :=
  lazymatch goal with
  | |- appends (raise _) => apply appends_raise
  | |- appends (mret _) => apply appends_ret
  | |- appends (lift _) => apply appends_lift
  | |- appends require_open => apply appends_require_open
  | |- appends (tofile _ _ ;; add_bytes_written _ ;; _) => apply appends_tofile
  | |- appends (tofile _ _ ;; add_bytes_written _) => apply appends_tofile_last
  | |- appends (if ?b then _ else _) => destruct b; cbn beta iota
  | |- appends (match ?x with Some _ => _ | None => _ end) =>
      destruct x; cbn beta iota
  | |- appends (_ ≫= _) => apply appends_bind; [|intros ?]
  end.

Lemma appends_write_convolutional_layer (layer : LayerInfo) :
  appends (write_convolutional_layer host layer).
Proof.
  unfold write_convolutional_layer. cbv zeta. repeat appends_step.
Qed.

Lemma appends_write_header (major minor revision seen : Z) :
  appends (write_header host major minor revision seen).
Proof.
  intros w.
  unfold write_header, mbind, W_bind, require_open, lift, struct_pack_iii,
    struct_pack_q, struct_pack_i, file_write, add_bytes_written.
  destruct (file_handle w) eqn:Hopen;
    [|exists []; apply writer_eta_handle, Hopen].
  destruct (in_int32 major), (in_int32 minor), (in_int32 revision);
    try (exists []; apply writer_eta_handle, Hopen).
  cbn [output_file file_handle total_bytes_written].
  destruct (2 <=? major * 10 + minor).
  - destruct (in_int64 seen);
      cbn [fst output_file file_handle total_bytes_written].
    + exists (encode_int host 4 major ++ encode_int host 4 minor ++
              encode_int host 4 revision ++ encode_int host 8 seen).
      rewrite !length_app, !length_encode_int, <- !app_assoc.
      f_equal; first [exact Hopen|lia].
    + exists (encode_int host 4 major ++ encode_int host 4 minor ++
              encode_int host 4 revision).
      rewrite !length_app, !length_encode_int.
      f_equal; first [exact Hopen|lia].
  - destruct (in_int32 seen);
      cbn [fst output_file file_handle total_bytes_written].
    + exists (encode_int host 4 major ++ encode_int host 4 minor ++
              encode_int host 4 revision ++ encode_int host 4 seen).
      rewrite !length_app, !length_encode_int, <- !app_assoc.
      f_equal; first [exact Hopen|lia].
    + exists (encode_int host 4 major ++ encode_int host 4 minor ++
              encode_int host 4 revision).
      rewrite !length_app, !length_encode_int.
      f_equal; first [exact Hopen|lia].
Qed.

Lemma appends_for_each {A} (f : A -> W unit) (l : list A) :
  (forall x, appends (f x)) -> appends (for_each f l).
Proof.
  intros Hf. induction l as [|x l IH]; cbn [for_each].
  - apply appends_ret.
  - apply appends_bind; [apply Hf|intros _; exact IH].
Qed.

Lemma appends_write_layers (ls : list LayerInfo) :
  appends (write_layers host ls).
Proof.
  unfold write_layers.
  apply (appends_for_each _ _ (appends_write_convolutional_layer)).
Qed.

(** X2: [write_layers] only appends to the file: whether it returns or
    raises, the bytes that were in the file are still its first bytes, the
    handle is as it was, and [total_bytes_written] has moved by the number
    of bytes appended. *)
Theorem write_layers_only_appends (ls : list LayerInfo)
    (w : DarknetWeightsWriter) :
  exists bs,
    fst (write_layers host ls w) =
    mkWriter (output_file w ++ bs) (file_handle w)
      (total_bytes_written w + Z.of_nat (length bs)).
Proof. apply appends_write_layers. Qed.

(** X3: called on a writer that holds no open handle, [write_model] leaves
    the handle closed and [total_bytes_written] equal to the length of the
    file, whether it returns or raises. *)
Theorem write_model_closes_and_counts (ls : list LayerInfo)
    (major minor revision seen : Z) (w0 : DarknetWeightsWriter) :
  file_handle w0 = false ->
  exists bs,
    fst (write_model host ls major minor revision seen w0) =
    mkWriter bs false (Z.of_nat (length bs)).
Proof.
  intros _.
  unfold write_model, mbind at 1, W_bind at 1, open, try_finally_close, close.
  assert (Hbody : appends (write_header host major minor revision seen ;;
                           write_layers host ls)).
  { apply appends_bind; [apply appends_write_header|intros _].
    apply appends_write_layers. }
  destruct (Hbody (mkWriter [] true 0)) as [bs Hbs].
  destruct ((write_header host major minor revision seen ;;
             write_layers host ls) (mkWriter [] true 0)) as [w' r].
  cbn [fst] in Hbs. subst w'. exists bs. reflexivity.
Qed.

Lemma for_each_app {A} (f : A -> W unit) (l1 l2 : list A)
    (w : DarknetWeightsWriter) :
  for_each f (l1 ++ l2) w =
  match for_each f l1 w with
  | (w', Ok _) => for_each f l2 w'
  | (w', Raise e) => (w', Raise e)
  end.
Proof.
  revert w. induction l1 as [|x l1 IH]; intros w; [reflexivity|].
  cbn [for_each app]. unfold mbind, W_bind.
  destruct (f x w) as [w1 [[]|e]]; [apply IH|reflexivity].
Qed.

(** X4: writing the layers of [l1 ++ l2] is writing those of [l1] and then,
    if that returned, those of [l2] on the file as [l1] left it; if [l1]
    raised, that is the result and nothing of [l2] is written. *)
Theorem write_layers_app (l1 l2 : list LayerInfo)
    (w : DarknetWeightsWriter) :
  write_layers host (l1 ++ l2) w =
  match write_layers host l1 w with
  | (w', Ok _) => write_layers host l2 w'
  | (w', Raise e) => (w', Raise e)
  end.
Proof.
  unfold write_layers. rewrite List.filter_app. apply for_each_app.
Qed.

(** X5: a seen count that [struct.pack] refuses leaves the twelve bytes
    of major, minor and revision in the file; a version field that it
    refuses, or a file that is not open, leaves the writer as it was. *)
Theorem write_header_failures (major minor revision seen : Z)
    (w : DarknetWeightsWriter) :
  (file_handle w = false ->
   write_header host major minor revision seen w =
   (w, Raise RuntimeError_file_not_opened)) /\
  (file_handle w = true ->
   in_int32 major && in_int32 minor && in_int32 revision = false ->
   write_header host major minor revision seen w =
   (w, Raise StructError_out_of_range)) /\
  (file_handle w = true ->
   in_int32 major && in_int32 minor && in_int32 revision = true ->
   (if 2 <=? major * 10 + minor then in_int64 seen else in_int32 seen)
     = false ->
   write_header host major minor revision seen w =
   (mkWriter
      (output_file w ++ encode_int host 4 major ++ encode_int host 4 minor ++
       encode_int host 4 revision)
      true (total_bytes_written w + 12), Raise StructError_out_of_range)).
Proof.
  unfold write_header, mbind, W_bind, require_open, lift, struct_pack_iii,
    struct_pack_q, struct_pack_i, file_write, add_bytes_written.
  split; [|split].
  - intros ->. reflexivity.
  - intros -> H.
    destruct (in_int32 major), (in_int32 minor), (in_int32 revision);
      try discriminate H; reflexivity.
  - intros Hopen H Hseen. rewrite Hopen.
    apply andb_true_iff in H as [H Hrev].
    apply andb_true_iff in H as [Hmaj Hmin].
    rewrite Hmaj, Hmin, Hrev.
    cbn [output_file file_handle total_bytes_written].
    destruct (2 <=? major * 10 + minor); rewrite Hseen; rewrite Hopen;
      reflexivity.
Qed.

Lemma take_drop_header (a b c rest : list byte) :
  length a = 4%nat -> length b = 4%nat -> length c = 4%nat ->
  let header := take 12 (a ++ b ++ c ++ rest) in
  length header = 12%nat /\ take 4 header = a /\
  take 4 (drop 4 header) = b /\ take 4 (drop 8 header) = c.
Proof.
  intros Ha Hb Hc header.
  assert (Hh : header = a ++ b ++ c).
  { unfold header. rewrite (app_assoc b c rest), (app_assoc a (b ++ c) rest).
    apply take_app_length'. rewrite !length_app. lia. }
  rewrite Hh. repeat split.
  - rewrite !length_app. lia.
  - apply take_app_length'. congruence.
  - rewrite drop_app_length' by congruence.
    apply take_app_length'. congruence.
  - rewrite app_assoc, drop_app_length' by (rewrite length_app; lia).
    rewrite <- (app_nil_r c) at 1. apply take_app_length'. congruence.
Qed.

Lemma is_darknet_weights_header (major minor revision : Z)
    (rest : list byte) :
  in_int32 major = true -> in_int32 minor = true ->
  in_int32 revision = true ->
  _is_darknet_weights host
    (Some (encode_int host 4 major ++ encode_int host 4 minor ++
           encode_int host 4 revision ++ rest)) = true <->
  0 <= major <= 10 /\ 0 <= minor <= 10 /\ 0 <= revision <= 10.
Proof.
  intros Hmaj Hmin Hrev. unfold _is_darknet_weights.
  destruct (take_drop_header (encode_int host 4 major)
              (encode_int host 4 minor) (encode_int host 4 revision) rest)
    as (Hl & Ha & Hb & Hc); try apply length_encode_int.
  rewrite Hl, Ha, Hb, Hc. cbn [Nat.ltb Nat.leb].
  rewrite !decode_encode_int32 by assumption.
  rewrite !andb_true_iff, !Z.leb_le. tauto.
Qed.

(** X6: [_is_darknet_weights] rejects a file that cannot be opened and
    every file shorter than 12 bytes, and it accepts a file that starts with
    the int32 values major, minor and revision exactly when each of them
    lies between 0 and 10, whatever follows them. *)
Theorem is_darknet_weights_by_version :
  _is_darknet_weights host None = false /\
  (forall content, (length content < 12)%nat ->
     _is_darknet_weights host (Some content) = false) /\
  (forall major minor revision rest,
     in_int32 major = true -> in_int32 minor = true ->
     in_int32 revision = true ->
     _is_darknet_weights host
       (Some (encode_int host 4 major ++ encode_int host 4 minor ++
              encode_int host 4 revision ++ rest)) = true <->
     0 <= major <= 10 /\ 0 <= minor <= 10 /\ 0 <= revision <= 10).
Proof.
  split; [reflexivity|split].
  - intros content Hlen. unfold _is_darknet_weights.
    assert (H : (length (take 12 content) <? 12)%nat = true).
    { apply Nat.ltb_lt. rewrite length_take. lia. }
    rewrite H. reflexivity.
  - intros major minor revision rest. apply is_darknet_weights_header.
Qed.

(** X7: whatever the layers are and however the write ends,
    [write_darknet_weights] leaves a file that starts with the 20-byte
    header of version 0.2.0 with seen = 0; the header reader returns
    (0, 2, 0, 0) on it and [_is_darknet_weights] accepts it. *)
Theorem default_header_always_written (ls : list LayerInfo) :
  exists blocks,
    fst (write_darknet_weights host ls) =
      encode_int host 4 0 ++ encode_int host 4 2 ++ encode_int host 4 0 ++
      encode_int host 8 0 ++ blocks /\
    verify_darknet_weights_header host (fst (write_darknet_weights host ls))
      = Ok (0, 2, 0, 0) /\
    _is_darknet_weights host (Some (fst (write_darknet_weights host ls)))
      = true.
Proof.
  assert (Hw : exists blocks,
             fst (write_darknet_weights host ls) =
             encode_int host 4 0 ++ encode_int host 4 2 ++
             encode_int host 4 0 ++ encode_int host 8 0 ++ blocks).
  { unfold write_darknet_weights, write_model, try_finally_close, close,
      open, new_writer.
    unfold mbind at 1, W_bind at 1. unfold mbind at 1, W_bind at 1.
    pose proof (write_header_ok host 0 2 0 0 (mkWriter [] true 0)
                  eq_refl eq_refl eq_refl eq_refl eq_refl) as Hh.
    cbn zeta in Hh. rewrite Hh. clear Hh.
    cbn [output_file total_bytes_written app].
    match goal with
    | |- context [write_layers host ls ?w0] =>
        destruct (appends_write_layers ls w0) as [blocks Hb];
        destruct (write_layers host ls w0) as [w' r]
    end.
    cbn [fst] in Hb. subst w'. cbn [fst snd output_file]. exists blocks.
    rewrite <- !app_assoc. reflexivity. }
  destruct Hw as [blocks Hw]. exists blocks. rewrite Hw.
  split; [reflexivity|split].
  - replace (encode_int host 4 0 ++ encode_int host 4 2 ++
             encode_int host 4 0 ++ encode_int host 8 0 ++ blocks)
      with ((encode_int host 4 0 ++ encode_int host 4 2 ++
             encode_int host 4 0 ++ encode_int host 8 0) ++ blocks)
      by (rewrite <- !app_assoc; reflexivity).
    apply (verify_header_roundtrip host 0 2 0 0 blocks
             eq_refl eq_refl eq_refl eq_refl).
    rewrite !length_app, !length_encode_int.
    change (2 <=? 0 * 10 + 2) with true. cbn beta iota. lia.
  - apply (is_darknet_weights_header 0 2 0
             (encode_int host 8 0 ++ blocks) eq_refl eq_refl eq_refl).
    lia.
Qed.

(** ** validate and the writer *)

Lemma validate_conv_nil (layer : LayerInfo) :
  validate_conv layer = [] <-> conv_complete layer.
Proof.
  unfold validate_conv, conv_complete.
  destruct (weights layer), (batch_normalize layer), (bn_gamma layer),
    (bn_mean layer), (bn_variance layer); cbn; split;
    try discriminate; try reflexivity.
  all: try (intros _; split; [eauto|]; intros; try discriminate;
            repeat split; eauto).
  all: intros [Hw Hbn]; try (destruct Hw as [? [=]]);
    try (destruct (Hbn eq_refl) as ([? Hg] & [? Hm] & [? Hv]);
         discriminate).
Qed.

Lemma flat_map_nil {A B} (f : A -> list B) (l : list A) :
  flat_map f l = [] <-> Forall (fun x => f x = []) l.
Proof.
  induction l as [|x l IH]; cbn [flat_map].
  - split; [constructor|reflexivity].
  - split.
    + intros H. apply app_eq_nil in H as [Hx Hl].
      constructor; [exact Hx|apply IH, Hl].
    + intros H. inversion H as [|? ? Hx Hl]; subst.
      rewrite Hx. apply IH, Hl.
Qed.

Lemma validate_true_iff (ls : list LayerInfo)
    (shape : option (Z * Z * Z)) :
  fst (validate ls shape) = true <->
  ls <> [] /\ shape <> None /\ Forall conv_complete (get_conv_layers ls).
Proof.
  unfold validate. cbn [fst]. rewrite Nat.eqb_eq, length_zero_iff_nil.
  rewrite (Forall_iff _ _ _ (fun x => iff_sym (validate_conv_nil x))).
  rewrite <- flat_map_nil.
  destruct ls as [|l ls], shape as [sh|]; cbn [is_None app]; split;
    try discriminate.
  all: try (intros (H1 & H2 & H3); congruence).
  intros H. split; [discriminate|split; [discriminate|exact H]].
Qed.

(** X8: [validate] accepts exactly the models that have at least one
    record, a known input shape, and in which every convolution has its
    weights and, when flagged as normalized, its scale, running mean and
    running variance. Array lengths, biases and the shift play no part. *)
Theorem validate_accepts_iff (ls : list LayerInfo)
    (shape : option (Z * Z * Z)) :
  fst (validate ls shape) = true <->
  ls <> [] /\ shape <> None /\ Forall conv_complete (get_conv_layers ls).
Proof. apply validate_true_iff. Qed.

Lemma complete_conv_errors (layer : LayerInfo) (w : DarknetWeightsWriter)
    (e : Error) :
  conv_complete layer -> type_is "convolutional" layer = true ->
  file_handle w = true ->
  snd (write_convolutional_layer host layer w) = Raise e ->
  is_size_error e = true.
Proof.
  intros [[ws Hws] Hbn] Hty Hopen.
  destruct (write_convolutional_layer host layer w) as [w' o] eqn:H.
  cbn [snd]. intros ->.
  unfold_block H. rewrite Hopen, Hty, Hws in H.
  split_block H; inversion H; subst; try reflexivity.
  all: try match goal with
           | E : negb (?x =? ?x) = true |- _ =>
               rewrite Z.eqb_refl in E; discriminate E
           end.
  all: destruct (Hbn eq_refl) as ([? Hg] & [? Hm] & [? Hv]); congruence.
Qed.

(** X9: a model that [validate] accepts can still fail in [write_layers],
    but only on the size of an array: a biases, scale, running-mean or
    running-variance length that differs from [filters], or a [filters]
    that [np.zeros] refuses. *)
Theorem validated_model_fails_only_on_sizes (ls : list LayerInfo)
    (shape : option (Z * Z * Z)) (w : DarknetWeightsWriter) (e : Error) :
  fst (validate ls shape) = true ->
  file_handle w = true ->
  snd (write_layers host ls w) = Raise e ->
  is_size_error e = true.
Proof.
  intros Hv Hopen. apply validate_true_iff in Hv as (_ & _ & Hall).
  unfold write_layers. unfold get_conv_layers in Hall.
  assert (Hconv : Forall (fun l => type_is "convolutional" l = true)
                    (List.filter (type_is "convolutional") ls)).
  { apply List.Forall_forall. intros x Hx.
    apply List.filter_In in Hx. tauto. }
  revert w Hopen Hall Hconv.
  induction (List.filter (type_is "convolutional") ls) as [|x l IH];
    intros w Hopen Hall Hconv; cbn [for_each].
  - discriminate.
  - inversion Hall as [|? ? Hx Hl]; subst.
    inversion Hconv as [|? ? Cx Cl]; subst.
    unfold mbind, W_bind.
    pose proof (complete_conv_errors x w) as Herr.
    destruct (appends_write_convolutional_layer x w) as [bs Hbs].
    destruct (write_convolutional_layer host x w) as [w1 [[]|e1]].
    + cbn [fst] in Hbs. subst w1. apply IH; assumption.
    + cbn [snd]. intros [= <-]. apply Herr; auto.
Qed.

(** ** The reconciler and the writer *)

(** X10: the block of a convolution fused with a batch normalization whose
    four arrays have [filters] elements: its first array is the shift when
    the convolution had no biases or only zeros, and the biases of the
    convolution otherwise (the shift then does not reach the file); scale,
    running mean, running variance and the weights follow. *)
Theorem fused_block_layout (c bn : LayerInfo) (w : DarknetWeightsWriter)
    (n : Z) (ws slot g m v : list float32) :
  file_handle w = true ->
  type c = "convolutional"%string ->
  filters c = Some n -> weights c = Some ws ->
  biases (fuse c bn) = Some slot ->
  bn_gamma bn = Some g -> bn_mean bn = Some m -> bn_variance bn = Some v ->
  Z.of_nat (length slot) = n -> Z.of_nat (length g) = n ->
  Z.of_nat (length m) = n -> Z.of_nat (length v) = n ->
  write_convolutional_layer host (fuse c bn) w =
    (mkWriter
       (output_file w ++ f32_bytes host (slot ++ g ++ m ++ v ++ ws))
       true
       (total_bytes_written w + 4 * (4 * n + Z.of_nat (length ws))),
     Ok tt) /\
  (biases_none_or_zero c = true -> bn_beta bn = Some slot) /\
  (biases_none_or_zero c = false -> biases c = Some slot).
Proof.
  intros Hopen Hty Hn Hws Hslot Hg Hm Hv Ls Lg Lm Lv.
  split; [|split].
  - unfold write_convolutional_layer.
    rewrite Hslot, (type_is_eq "convolutional" (fuse c bn) Hty).
    cbn [fuse weights filters batch_normalize bn_gamma bn_mean bn_variance].
    rewrite Hn, Hws, Hg, Hm, Hv.
    unfold mbind, W_bind, mret, W_ret, require_open, raise, lift, tofile,
      file_write, add_bytes_written, shape0_differs, np_size, nbytes.
    rewrite Hopen, Ls, Lg, Lm, Lv, !Z.eqb_refl.
    cbn [negb output_file file_handle total_bytes_written].
    rewrite Hopen, !f32_bytes_app, <- !app_assoc. f_equal. f_equal. lia.
  - intros Hz. cbn [fuse biases] in Hslot. rewrite Hz in Hslot. exact Hslot.
  - intros Hz. cbn [fuse biases] in Hslot. rewrite Hz in Hslot. exact Hslot.
Qed.

End WriterFacts.

(** ** Reading back: the header and arrays of float32 *)

Section ReaderFacts.

Variable host : ByteOrder.

Lemma split_five_items (f : list byte) :
  f = take 4 f ++ take 4 (drop 4 f) ++ take 4 (drop 8 f) ++
      take 4 (drop 12 f) ++ take 4 (drop 16 f) ++ drop 20 f.
Proof.
  symmetry.
  replace (drop 20 f) with (drop 4 (drop 16 f)) by apply drop_drop.
  rewrite take_drop.
  replace (drop 16 f) with (drop 4 (drop 12 f)) by apply drop_drop.
  rewrite take_drop.
  replace (drop 12 f) with (drop 4 (drop 8 f)) by apply drop_drop.
  rewrite take_drop.
  replace (drop 8 f) with (drop 4 (drop 4 f)) by apply drop_drop.
  rewrite take_drop. apply take_drop.
Qed.

Lemma split_three_items (f : list byte) :
  f = take 4 f ++ take 4 (drop 4 f) ++ take 4 (drop 8 f) ++ drop 12 f.
Proof.
  symmetry.
  replace (drop 12 f) with (drop 4 (drop 8 f)) by apply drop_drop.
  rewrite take_drop.
  replace (drop 8 f) with (drop 4 (drop 4 f)) by apply drop_drop.
  rewrite take_drop. apply take_drop.
Qed.

(** X11: on a file of at least 20 bytes the header reader always returns,
    and what it returns is read off the first 20 bytes alone: three int32 at
    offsets 0, 4 and 8, then seen as the int64 at offset 12 when
    [major * 10 + minor >= 2] and as the int32 at offset 12 otherwise. *)
Theorem verify_header_on_long_file (file : list byte) :
  (20 <= length file)%nat ->
  let major := decode_int host (take 4 file) in
  let minor := decode_int host (take 4 (drop 4 file)) in
  let revision := decode_int host (take 4 (drop 8 file)) in
  verify_darknet_weights_header host file =
  Ok (major, minor, revision,
      if 2 <=? major * 10 + minor
      then decode_int host (take 8 (drop 12 file))
      else decode_int host (take 4 (drop 12 file))).
Proof.
  intros Hlen major minor revision.
  assert (L : forall k, (k <= 16)%nat -> length (take 4 (drop k file)) = 4%nat).
  { intros k Hk. rewrite length_take, length_drop. lia. }
  assert (E5 : np_fromfile host 4 5 file =
               ([major; minor; revision;
                 decode_int host (take 4 (drop 12 file));
                 decode_int host (take 4 (drop 16 file))],
                drop 20 file)).
  { rewrite (split_five_items file) at 1.
    apply np_fromfile_5; first [apply (L 0%nat); lia | apply L; lia]. }
  assert (E3 : np_fromfile host 4 3 file =
               ([major; minor; revision], drop 12 file)).
  { rewrite (split_three_items file) at 1.
    apply np_fromfile_3; first [apply (L 0%nat); lia | apply L; lia]. }
  unfold verify_darknet_weights_header.
  rewrite E5, E3. cbn [length Nat.ltb Nat.leb nth].
  destruct (2 <=? major * 10 + minor); [|reflexivity].
  cbn [np_fromfile].
  assert (H8 : (length (drop 12 file) <? 8)%nat = false).
  { apply Nat.ltb_ge. rewrite length_drop. lia. }
  rewrite H8. reflexivity.
Qed.

Lemma np_fromfile_f32_count (c : nat) (f : list byte) :
  (length (fst (np_fromfile_f32 host c f)) <= c)%nat /\
  (length (fst (np_fromfile_f32 host c f)) * 4 <= length f)%nat /\
  ((c * 4 <= length f)%nat ->
   length (fst (np_fromfile_f32 host c f)) = c) /\
  length f = (4 * length (fst (np_fromfile_f32 host c f)) +
              length (snd (np_fromfile_f32 host c f)))%nat.
Proof.
  revert f. induction c as [|c IH]; intros f; cbn [np_fromfile_f32].
  - cbn. lia.
  - destruct (Nat.ltb_spec (length f) 4) as [Hlt|Hge].
    + cbn. lia.
    + specialize (IH (drop 4 f)).
      destruct (np_fromfile_f32 host c (drop 4 f)) as [xs f'].
      cbn [fst snd length] in *. rewrite length_drop in IH. lia.
Qed.

Lemma np_fromfile_f32_bytes (a : list float32) (rest : list byte) :
  f32_valid a ->
  np_fromfile_f32 host (length a) (f32_bytes host a ++ rest) = (a, rest).
Proof.
  unfold f32_valid. induction 1 as [|x a Hx Ha IH]; [reflexivity|].
  cbn [length np_fromfile_f32 f32_bytes flat_map].
  fold (f32_bytes host a). rewrite <- app_assoc.
  assert (Hl : (length (encode_int host 4 (f32_bits x) ++
                        f32_bytes host a ++ rest) <? 4)%nat = false).
  { apply Nat.ltb_ge. rewrite length_app, length_encode_int. lia. }
  rewrite Hl.
  rewrite drop_app_length', take_app_length'
    by (rewrite length_encode_int; reflexivity).
  rewrite IH, decode_uint_encode_int.
  change (2 ^ (Z.of_nat 4 * 8)) with 4294967296.
  rewrite Z.mod_small by exact Hx. destruct x. reflexivity.
Qed.

(** X12: an array of float32 that [write_binary_floats] has appended to a
    file is what [read_binary_floats] returns when it reads as many items
    from where the write began, and the handle is left right after it. *)
Theorem binary_floats_roundtrip (f rest : list byte) (data : list float32) :
  f32_valid data ->
  read_binary_floats host
    (drop (length f) (write_binary_floats host f data ++ rest))
    (Z.of_nat (length data)) =
  ReadOk data rest.
Proof.
  intros Hv. unfold write_binary_floats, read_binary_floats.
  rewrite <- app_assoc, drop_app_length.
  assert (Hneg : (Z.of_nat (length data) <? 0) = false)
    by (apply Z.ltb_ge; lia).
  rewrite Hneg, Nat2Z.id, np_fromfile_f32_bytes by exact Hv.
  rewrite Z.eqb_refl. reflexivity.
Qed.

(** X13: for a count that [np.fromfile] takes, [read_binary_floats] raises
    its ValueError exactly when the count is negative or the bytes left in
    the file are fewer than four per item asked for; it never returns fewer
    items than asked. *)
Theorem read_binary_floats_error_iff (f : list byte) (count : Z) :
  count_in_range count ->
  (read_binary_floats host f count = ReadValueError <->
   count < 0 \/ Z.of_nat (length f) < 4 * count) /\
  (forall data rest, read_binary_floats host f count = ReadOk data rest ->
     Z.of_nat (length data) = count /\
     length f = (4 * length data + length rest)%nat).
Proof.
  intros _. unfold read_binary_floats.
  set (c := if count <? 0 then (length f / 4)%nat else Z.to_nat count).
  pose proof (np_fromfile_f32_count c f) as (Hle & Hbytes & Hfull & Hrest).
  destruct (np_fromfile_f32 host c f) as [data rest].
  cbn [fst snd] in *. subst c.
  destruct (Z.ltb_spec count 0) as [Hneg|Hpos].
  - assert (Hne : (Z.of_nat (length data) =? count) = false)
      by (apply Z.eqb_neq; lia).
    rewrite Hne. cbn [negb]. split; [tauto|discriminate].
  - destruct (Z.eqb_spec (Z.of_nat (length data)) count) as [Heq|Hne];
      cbn [negb].
    + split.
      * split; [discriminate|]. intros [?|?]; lia.
      * intros ? ? [= <- <-]. split; [exact Heq|exact Hrest].
    + split; [|discriminate]. split; [intros _|reflexivity].
      right. destruct (Z.lt_ge_cases (Z.of_nat (length f)) (4 * count));
        [assumption|].
      exfalso. apply Hne. rewrite Hfull; lia.
Qed.

End ReaderFacts.

(** ** Sizes *)

(** X14: with a stride of 1 and the padding that [_parse_conv2d] derives
    from the mode 'same', the output is as wide as the input for an odd
    kernel and one wider for an even one; with 'valid' it is
    input - kernel + 1. For a positive stride the result counts the window
    positions that fit, and a stride of 0 is a ZeroDivisionError. *)
Theorem conv_output_size_facts (input_size kernel_size stride padding : Z) :
  calculate_conv_output_size input_size kernel_size 1
    (conv2d_padding "same" kernel_size) =
    Some (if Z.odd kernel_size then input_size else input_size + 1) /\
  calculate_conv_output_size input_size kernel_size 1
    (conv2d_padding "valid" kernel_size) =
    Some (input_size - kernel_size + 1) /\
  calculate_conv_output_size input_size kernel_size 0 padding = None /\
  (0 < stride ->
   exists out,
     calculate_conv_output_size input_size kernel_size stride padding =
       Some out /\
     stride * (out - 1) <= input_size + 2 * padding - kernel_size
       < stride * out).
Proof.
  unfold calculate_conv_output_size, conv2d_padding.
  change (String.eqb "same" "same") with true.
  change (String.eqb "valid" "same") with false.
  change (String.eqb "valid" "valid") with true.
  change (1 =? 0) with false. change (0 =? 0) with true. cbn beta iota.
  repeat split.
  - f_equal. pose proof (Zmod_odd kernel_size) as Hodd.
    destruct (Z.odd kernel_size); Z.div_mod_to_equations; lia.
  - f_equal. rewrite Z.div_1_r. lia.
  - intros Hs. destruct (Z.eqb_spec stride 0) as [->|_]; [lia|].
    eexists. split; [reflexivity|]. Z.div_mod_to_equations. nia.
Qed.

Lemma fold_left_mul (shape : list Z) (a : Z) :
  fold_left (fun count dim => count * dim) shape a =
  a * count_parameters shape.
Proof.
  unfold count_parameters. revert a.
  induction shape as [|d shape IH]; intros a; cbn [fold_left].
  - lia.
  - rewrite IH, (IH (1 * d)). lia.
Qed.

(** X15: [count_parameters] multiplies: the count of a shape put together
    from two is the product of their counts, the empty shape counts 1, a
    shape with a dimension 0 counts 0, and a shape of positive dimensions
    counts a positive number. *)
Theorem count_parameters_product (s1 s2 : list Z) :
  count_parameters (s1 ++ s2) = count_parameters s1 * count_parameters s2 /\
  count_parameters [] = 1 /\
  (In 0 s1 -> count_parameters s1 = 0) /\
  (Forall (fun d => 0 < d) s1 -> 0 < count_parameters s1).
Proof.
  split; [|split; [reflexivity|split]].
  - unfold count_parameters at 1. rewrite fold_left_app.
    fold (count_parameters s1). apply fold_left_mul.
  - induction s1 as [|d s IH]; [contradiction|].
    unfold count_parameters. cbn [fold_left]. rewrite fold_left_mul.
    intros [->|Hin]; [lia|]. rewrite (IH Hin). lia.
  - induction 1 as [|d s Hd _ IH]; [reflexivity|].
    unfold count_parameters. cbn [fold_left]. rewrite fold_left_mul. nia.
Qed.

(** ** Lookups in the list of records *)

Lemma find_first {A} (p : A -> bool) (l : list A) (x : A) :
  List.find p l = Some x <->
  exists i, l !! i = Some x /\ p x = true /\
            forall j y, (j < i)%nat -> l !! j = Some y -> p y = false.
Proof.
  induction l as [|a l IH]; cbn [List.find].
  - split; [discriminate|]. intros (i & Hi & _). destruct i; discriminate.
  - destruct (p a) eqn:Hpa.
    + split.
      * intros [= <-]. exists 0%nat. repeat split; [exact Hpa|]. lia.
      * intros (i & Hi & Hpx & Hfirst). destruct i as [|i].
        -- injection Hi as <-. reflexivity.
        -- specialize (Hfirst 0%nat a ltac:(lia) eq_refl). congruence.
    + rewrite IH. split.
      * intros (i & Hi & Hpx & Hfirst). exists (S i).
        repeat split; [exact Hi|exact Hpx|].
        intros [|j] y Hj Hy; [injection Hy as <-; exact Hpa|].
        apply (Hfirst j y); [lia|exact Hy].
      * intros (i & Hi & Hpx & Hfirst). destruct i as [|i].
        -- injection Hi as <-. congruence.
        -- exists i. repeat split; [exact Hi|exact Hpx|].
           intros j y Hj Hy. apply (Hfirst (S j) y); [lia|exact Hy].
Qed.

Lemma find_absent {A} (p : A -> bool) (l : list A) :
  List.find p l = None <-> forall x, In x l -> p x = false.
Proof.
  induction l as [|a l IH]; cbn [List.find In].
  - split; [intros _ x []|reflexivity].
  - destruct (p a) eqn:Hpa.
    + split; [discriminate|]. intros H. rewrite (H a) in Hpa by auto.
      discriminate.
    + rewrite IH. split.
      * intros H x [<-|Hx]; auto.
      * intros H x Hx. apply H. auto.
Qed.

(** X16: [get_layer_by_name] returns the record at the first position
    whose name is the one asked for, and [None] exactly when no record has
    that name; with two records of one name the later one is never
    returned. *)
Theorem get_layer_by_name_first (ls : list LayerInfo) (nm : string) :
  (forall layer,
     get_layer_by_name ls nm = Some layer <->
     exists i, ls !! i = Some layer /\ name layer = nm /\
       forall j other, (j < i)%nat -> ls !! j = Some other ->
                       name other <> nm) /\
  (get_layer_by_name ls nm = None <->
   forall layer, In layer ls -> name layer <> nm).
Proof.
  unfold get_layer_by_name. split.
  - intros layer. rewrite find_first. split.
    + intros (i & Hi & Hp & Hfirst). exists i. split; [exact Hi|].
      split; [apply String.eqb_eq, Hp|].
      intros j other Hj Ho. apply String.eqb_neq. eapply Hfirst; eauto.
    + intros (i & Hi & Hp & Hfirst). exists i. split; [exact Hi|].
      split; [apply String.eqb_eq, Hp|].
      intros j other Hj Ho. apply String.eqb_neq. eapply Hfirst; eauto.
  - rewrite find_absent. split.
    + intros H layer Hin. apply String.eqb_neq. auto.
    + intros H layer Hin. apply String.eqb_neq. auto.
Qed.

Lemma reconcile_at_index d ls i c : index (reconcile_at d ls i c) = index c.
Proof.
  unfold reconcile_at.
  destruct (type_is _ c); [|reflexivity].
  destruct (find_bn_layer d ls i c); [|reflexivity].
  destruct (ls !! n); reflexivity.
Qed.

Lemma find_related {A} (p : A -> bool) (R : A -> A -> Prop) (l l' : list A) :
  Forall2 R l l' -> (forall a b, R a b -> p a = p b) ->
  match List.find p l, List.find p l' with
  | Some a, Some b => R a b
  | None, None => True
  | _, _ => False
  end.
Proof.
  intros HF Hp. induction HF as [|a b l l' Hab _ IH]; cbn [List.find].
  - exact I.
  - rewrite <- (Hp a b Hab). destruct (p a); [exact Hab|exact IH].
Qed.

Lemma parse_layers_identity (ls : list LayerInfo) :
  Forall2 (fun a b => name b = name a /\ type b = type a /\
                      index b = index a)
    ls (parse_layers ls).
Proof.
  unfold parse_layers. apply Forall2_same_length_lookup. split.
  - symmetry. apply match_conv_bn_pairs_length.
  - intros i x y Hx Hy. rewrite match_conv_bn_pairs_lookup, Hx in Hy.
    injection Hy as <-.
    rewrite reconcile_at_name, reconcile_at_type, reconcile_at_index.
    repeat split.
Qed.

(** X17: the reconciler does not disturb the lookups: by name and by index,
    a record is found in its result exactly when one is found in its
    input, and the one found has the same name, type and index. *)
Theorem lookups_survive_reconciler (ls : list LayerInfo) (nm : string)
    (ix : Z) :
  let key := fun layer => (name layer, type layer, index layer) in
  key <$> get_layer_by_name (parse_layers ls) nm =
    key <$> get_layer_by_name ls nm /\
  key <$> get_layer_by_index (parse_layers ls) ix =
    key <$> get_layer_by_index ls ix.
Proof.
  intros key. pose proof (parse_layers_identity ls) as HF.
  unfold get_layer_by_name, get_layer_by_index. split.
  - pose proof (find_related (fun layer => String.eqb (name layer) nm)
                  _ _ _ HF) as H.
    destruct (List.find _ ls), (List.find _ (parse_layers ls));
      cbn; try reflexivity;
      try (exfalso; apply H; intros a b (-> & _); reflexivity).
    destruct H as (Hn & Ht & Hi);
      [intros a b (-> & _); reflexivity|].
    unfold key. rewrite Hn, Ht, Hi. reflexivity.
  - pose proof (find_related (fun layer => index layer =? ix)
                  _ _ _ HF) as H.
    destruct (List.find _ ls), (List.find _ (parse_layers ls));
      cbn; try reflexivity;
      try (exfalso; apply H; intros a b (_ & _ & ->); reflexivity).
    destruct H as (Hn & Ht & Hi);
      [intros a b (_ & _ & ->); reflexivity|].
    unfold key. rewrite Hn, Ht, Hi. reflexivity.
Qed.

(** ** The input shape *)

Lemma value_or_nonzero (v : option Z) (d : Z) : d <> 0 -> value_or v d <> 0.
Proof.
  intros Hd. unfold value_or. destruct v as [k|]; [|exact Hd].
  destruct (Z.eqb_spec k 0); assumption.
Qed.

(** X18: once a model is loaded, the shape that reaches the configuration
    generator has no dimension 0: [get_input_shape] replaces a missing or
    zero dimension by 416, 416 or 3, and [determine_input_shape] lets an
    argument override a dimension only when the argument is not 0. *)
Theorem input_shape_never_zero (model : KerasInputShape) (args : Args.t)
    (parsed : Z * Z * Z) (h w c : Z) :
  get_input_shape (Some model) = Some parsed ->
  determine_input_shape args parsed = (h, w, c) ->
  h <> 0 /\ w <> 0 /\ c <> 0.
Proof.
  intros Hget Hdet.
  assert (Hparsed : fst (fst parsed) <> 0 /\ snd (fst parsed) <> 0 /\
                    snd parsed <> 0).
  { unfold get_input_shape in Hget.
    destruct (match model with
              | OneInput shape => Some shape
              | ManyInputs shapes => head shapes
              end) as [shape|]; [|discriminate].
    destruct shape as [|? [|a [|b [|c0 [|? ?]]]]];
      injection Hget as <-; cbn [fst snd];
      repeat split; try lia; apply value_or_nonzero; lia. }
  destruct parsed as [[ph pw] pc]. cbn [fst snd] in Hparsed.
  destruct Hparsed as (Hh & Hw & Hc).
  unfold determine_input_shape in Hdet.
  injection Hdet as <- <- <-.
  repeat split.
  - destruct (truthy_int (Args.img_height args)) eqn:E1;
      [|destruct (truthy_int (Args.img_size args)) eqn:E2];
      try assumption.
    + unfold truthy_int, value_or in *.
      destruct (Args.img_height args) as [k|]; [|discriminate].
      destruct (Z.eqb_spec k 0); [discriminate|assumption].
    + unfold truthy_int, value_or in *.
      destruct (Args.img_size args) as [k|]; [|discriminate].
      destruct (Z.eqb_spec k 0); [discriminate|assumption].
  - destruct (truthy_int (Args.img_width args)) eqn:E1;
      [|destruct (truthy_int (Args.img_size args)) eqn:E2];
      try assumption.
    + unfold truthy_int, value_or in *.
      destruct (Args.img_width args) as [k|]; [|discriminate].
      destruct (Z.eqb_spec k 0); [discriminate|assumption].
    + unfold truthy_int, value_or in *.
      destruct (Args.img_size args) as [k|]; [|discriminate].
      destruct (Z.eqb_spec k 0); [discriminate|assumption].
  - destruct (Z.eqb_spec (Args.channels args) 0); cbn [negb]; assumption.
Qed.

(** X19: in [determine_input_shape] a width or height argument beats
    [--img-size], which beats the shape of the model, and an argument of 0
    counts as not given; the channel count of the model is used only when
    [--channels] is 0, so with the default of 3 it is ignored. *)
Theorem input_shape_precedence (args : Args.t) (h w c : Z) :
  let '(h', w', c') := determine_input_shape args (h, w, c) in
  (forall v, Args.img_width args = Some v -> v <> 0 -> w' = v) /\
  (forall v, Args.img_height args = Some v -> v <> 0 -> h' = v) /\
  (forall s, Args.img_size args = Some s -> s <> 0 ->
     (truthy_int (Args.img_width args) = false -> w' = s) /\
     (truthy_int (Args.img_height args) = false -> h' = s)) /\
  (truthy_int (Args.img_size args) = false ->
     (truthy_int (Args.img_width args) = false -> w' = w) /\
     (truthy_int (Args.img_height args) = false -> h' = h)) /\
  c' = (if Args.channels args =? 0 then c else Args.channels args).
Proof.
  unfold determine_input_shape.
  assert (Hval : forall o v d, o = Some v -> v <> 0 ->
                   truthy_int o = true /\ value_or o d = v).
  { intros o v d -> Hv. unfold truthy_int, value_or.
    destruct (Z.eqb_spec v 0); [contradiction|]. split; reflexivity. }
  repeat split.
  - intros v Hv Hne. destruct (Hval _ _ w Hv Hne) as [-> ->]. reflexivity.
  - intros v Hv Hne. destruct (Hval _ _ h Hv Hne) as [-> ->]. reflexivity.
  - intros ->. destruct (Hval _ _ w H H0) as [-> ->]. reflexivity.
  - intros ->. destruct (Hval _ _ h H H0) as [-> ->]. reflexivity.
  - intros ->. rewrite H. reflexivity.
  - intros ->. rewrite H. reflexivity.
  - destruct (Args.channels args =? 0); reflexivity.
Qed.

(** ** The name correlation of the reconciler *)

Lemma list_ascii_of_string_app (a b : string) :
  list_ascii_of_string (a +:+ b) =
  list_ascii_of_string a ++ list_ascii_of_string b.
Proof.
  induction a as [|c a IH]; [reflexivity|].
  change (String c a +:+ b) with (String c (a +:+ b)).
  cbn [list_ascii_of_string app]. f_equal. exact IH.
Qed.

Lemma string_of_list_ascii_app (a b : list ascii) :
  string_of_list_ascii (a ++ b) =
  string_of_list_ascii a +:+ string_of_list_ascii b.
Proof.
  induction a as [|c a IH]; [reflexivity|].
  cbn [string_of_list_ascii app].
  change (String c (string_of_list_ascii a) +:+ string_of_list_ascii b)
    with (String c (string_of_list_ascii a +:+ string_of_list_ascii b)).
  f_equal. exact IH.
Qed.

Lemma string_of_list_ascii_inj (a b : string) :
  list_ascii_of_string a = list_ascii_of_string b -> a = b.
Proof.
  intros E. rewrite <- (string_of_list_ascii_of_string a),
    <- (string_of_list_ascii_of_string b), E. reflexivity.
Qed.

Lemma forallb_rev {A} (f : A -> bool) (l : list A) :
  forallb f (rev l) = forallb f l.
Proof.
  induction l as [|x l IH]; [reflexivity|].
  cbn [rev forallb]. rewrite forallb_app, IH. cbn [forallb].
  destruct (f x), (forallb f l); reflexivity.
Qed.

Lemma span_digits_spec (r : list ascii) :
  r = fst (span_digits r) ++ snd (span_digits r) /\
  forallb is_digit (fst (span_digits r)) = true.
Proof.
  induction r as [|c t IH]; cbn [span_digits]; [split; reflexivity|].
  destruct (is_digit c) eqn:Hc; [|split; reflexivity].
  destruct (span_digits t) as [d rest]. cbn [fst snd] in *.
  destruct IH as [-> IH]. cbn [forallb app]. rewrite Hc, IH.
  split; reflexivity.
Qed.

Lemma span_digits_app (d : list ascii) (c : ascii) (t : list ascii) :
  forallb is_digit d = true -> is_digit c = false ->
  span_digits (d ++ c :: t) = (d, c :: t).
Proof.
  intros Hd Hc. induction d as [|x d IH]; cbn [app span_digits].
  - rewrite Hc. reflexivity.
  - cbn [forallb] in Hd. apply andb_true_iff in Hd as [Hx Hd].
    rewrite Hx, (IH Hd). reflexivity.
Qed.

Lemma digit_not_newline (c : ascii) :
  is_digit c = true -> Ascii.eqb c "010" = false.
Proof.
  intros Hc. destruct (Ascii.eqb_spec c "010") as [->|]; [|reflexivity].
  discriminate Hc.
Qed.

Lemma re_search_number_rev (d t : list ascii) (newline : bool) :
  d <> [] -> forallb is_digit d = true ->
  re_search_number
    (string_of_list_ascii
       (rev ((if newline then ["010"%char] else []) ++ d ++ "_"%char :: t)))
  = Some (string_of_list_ascii (rev d)).
Proof.
  intros Hne Hd. unfold re_search_number.
  rewrite list_ascii_of_string_of_list_ascii, rev_involutive.
  assert (Hstrip :
            match (if newline then ["010"%char] else []) ++ d ++ "_"%char :: t
            with
            | c :: t0 =>
                if Ascii.eqb c "010"
                then t0
                else (if newline then ["010"%char] else []) ++
                     d ++ "_"%char :: t
            | [] => (if newline then ["010"%char] else []) ++
                    d ++ "_"%char :: t
            end = d ++ "_"%char :: t).
  { destruct newline; [reflexivity|]. cbn [app].
    destruct d as [|x d]; [contradiction|]. cbn [app forallb] in *.
    apply andb_true_iff in Hd as [Hx _].
    rewrite (digit_not_newline x Hx). reflexivity. }
  rewrite Hstrip, span_digits_app by (assumption || reflexivity).
  destruct d as [|x d]; [contradiction|]. reflexivity.
Qed.

(** X20: the search for [_(\d+)$] in a name returns [num] for a name
    [stem_num], and for [stem_num] followed by one newline, whenever [num]
    is a non-empty string of the digits 0 to 9; and among the names of
    ASCII characters these are the only ones for which it returns anything,
    [num] being the whole run of digits at the end. *)
Theorem re_search_number_characterised :
  (forall stem num,
     num <> EmptyString -> all_digits num = true ->
     re_search_number (stem +:+ "_" +:+ num) = Some num /\
     re_search_number (stem +:+ "_" +:+ num +:+ nl) = Some num) /\
  (forall s num,
     ascii_only s = true ->
     re_search_number s = Some num ->
     num <> EmptyString /\ all_digits num = true /\
     exists stem,
       s = stem +:+ "_" +:+ num \/ s = stem +:+ "_" +:+ num +:+ nl).
Proof.
  split.
  - intros stem num Hne Hd. unfold all_digits in Hd.
    set (cn := list_ascii_of_string num) in *.
    set (cs := list_ascii_of_string stem).
    assert (Hcn : rev cn <> []).
    { intros E. apply (f_equal (@rev ascii)) in E.
      rewrite rev_involutive in E. cbn in E.
      apply Hne. rewrite <- (string_of_list_ascii_of_string num).
      fold cn. rewrite E. reflexivity. }
    assert (Hnum : string_of_list_ascii (rev (rev cn)) = num).
    { rewrite rev_involutive. apply string_of_list_ascii_of_string. }
    assert (Hdr : forallb is_digit (rev cn) = true)
      by (rewrite forallb_rev; exact Hd).
    pose proof (re_search_number_rev (rev cn) (rev cs) false Hcn Hdr) as H0.
    pose proof (re_search_number_rev (rev cn) (rev cs) true Hcn Hdr) as H1.
    rewrite Hnum in H0, H1.
    split; [rewrite <- H0|rewrite <- H1]; f_equal;
      apply string_of_list_ascii_inj;
      rewrite list_ascii_of_string_of_list_ascii,
        !list_ascii_of_string_app;
      fold cn cs; cbn [app rev];
      rewrite !rev_app_distr; cbn [rev];
      rewrite !rev_involutive, <- !app_assoc; reflexivity.
  - intros s num _ H. unfold re_search_number in H.
    set (r := rev (list_ascii_of_string s)) in *.
    assert (Hs : s = string_of_list_ascii (rev r)).
    { unfold r. rewrite rev_involutive.
      symmetry. apply string_of_list_ascii_of_string. }
    set (r' := match r with
               | c :: t => if Ascii.eqb c "010" then t else r
               | [] => r
               end) in *.
    assert (Hr : r = r' \/ r = "010"%char :: r').
    { unfold r'. destruct r as [|c t]; [left; reflexivity|].
      destruct (Ascii.eqb_spec c "010") as [->|]; [right|left]; reflexivity. }
    pose proof (span_digits_spec r') as [Hsplit Hdig].
    destruct (span_digits r') as [d rest]. cbn [fst snd] in *.
    destruct d as [|x d]; [discriminate|].
    destruct rest as [|u t]; [discriminate|].
    destruct (Ascii.eqb_spec u "_") as [->|]; [|discriminate].
    injection H as <-.
    split; [|split].
    + intros E. apply (f_equal list_ascii_of_string) in E.
      rewrite list_ascii_of_string_of_list_ascii in E. cbn in E.
      apply (f_equal (@length ascii)) in E.
      rewrite length_app in E. cbn in E. lia.
    + unfold all_digits. rewrite list_ascii_of_string_of_list_ascii.
      change (forallb is_digit (rev (x :: d)) = true).
      rewrite forallb_rev. exact Hdig.
    + exists (string_of_list_ascii (rev t)).
      destruct Hr as [Hr|Hr]; [left|right]; rewrite Hs, Hr, Hsplit;
        apply string_of_list_ascii_inj;
        rewrite !list_ascii_of_string_app,
          !list_ascii_of_string_of_list_ascii;
        unfold nl; cbn [rev app list_ascii_of_string];
        rewrite !rev_app_distr; cbn [rev app];
        rewrite <- !app_assoc; reflexivity.
Qed.

Lemma bn_layers_add_key (m : gmap string nat) (p : nat) (layer : LayerInfo)
    (key : string) :
  (In key (bn_keys layer) -> bn_layers_add m p layer !! key = Some p) /\
  (~ In key (bn_keys layer) -> bn_layers_add m p layer !! key = m !! key).
Proof.
  unfold bn_layers_add, bn_keys.
  destruct (type_is "batch_normalization" layer); [|split; [intros []|auto]].
  destruct (re_search_number (name layer)) as [num|].
  - split.
    + intros [<-|[<-|[]]].
      * rewrite lookup_insert. case_decide; [reflexivity|].
        apply lookup_insert_eq.
      * apply lookup_insert_eq.
    + intros Hn. rewrite !lookup_insert_ne; [reflexivity| |];
        intros <-; apply Hn; cbn; auto.
  - destruct (String.eqb (name layer) "batch_normalization");
      [|split; [intros []|auto]].
    split.
    + intros [<-|[]]. apply lookup_insert_eq.
    + intros Hn. rewrite lookup_insert_ne; [reflexivity|].
      intros <-. apply Hn. cbn. auto.
Qed.

Lemma build_bn_layers_from_skip (ls : list LayerInfo) (key : string) :
  (forall x, In x ls -> ~ In key (bn_keys x)) ->
  forall p0 m, build_bn_layers_from p0 ls m !! key = m !! key.
Proof.
  induction ls as [|x ls IH]; intros Hno p0 m; [reflexivity|].
  cbn [build_bn_layers_from]. rewrite IH by (intros y Hy; apply Hno; cbn; auto).
  apply bn_layers_add_key, Hno. cbn. auto.
Qed.

Lemma build_bn_layers_from_last (l1 l2 : list LayerInfo) (bn : LayerInfo)
    (key : string) :
  In key (bn_keys bn) ->
  (forall x, In x l2 -> ~ In key (bn_keys x)) ->
  forall p0 m,
    build_bn_layers_from p0 (l1 ++ bn :: l2) m !! key =
    Some (p0 + length l1)%nat.
Proof.
  intros Hkey Hno. induction l1 as [|x l1 IH]; intros p0 m;
    cbn [app build_bn_layers_from length].
  - rewrite build_bn_layers_from_skip by exact Hno.
    rewrite Nat.add_0_r. apply bn_layers_add_key, Hkey.
  - rewrite IH. f_equal. lia.
Qed.

Lemma bn_layers_last (ls : list LayerInfo) (p : nat) (bn : LayerInfo)
    (key : string) :
  ls !! p = Some bn -> In key (bn_keys bn) ->
  (forall q x, (p < q)%nat -> ls !! q = Some x -> ~ In key (bn_keys x)) ->
  build_bn_layers ls !! key = Some p.
Proof.
  intros Hp Hkey Hno. unfold build_bn_layers.
  rewrite <- (take_drop_middle ls p bn Hp).
  rewrite build_bn_layers_from_last; [| exact Hkey |].
  - rewrite length_take. f_equal.
    apply lookup_lt_Some in Hp. lia.
  - intros x Hx. apply list_elem_of_In, list_elem_of_lookup in Hx as [j Hj].
    rewrite lookup_drop in Hj. apply (Hno (S p + j)%nat x); [lia|exact Hj].
Qed.

(** X21: a convolution named [conv2d_N] or [convolutional_N] is fused with
    the batch normalization whose name ends in [_N], wherever the two stand
    in the list and whatever record follows the convolution; when several
    batch normalizations end in [_N], it is the last of them. *)
Theorem named_partner_is_fused (ls : list LayerInfo) (i p : nat)
    (c bn : LayerInfo) (num : string) :
  ls !! i = Some c -> type c = "convolutional"%string ->
  name c = "conv2d_" +:+ num \/ name c = "convolutional_" +:+ num ->
  ls !! p = Some bn -> type bn = "batch_normalization"%string ->
  re_search_number (name bn) = Some num ->
  (forall q x, (p < q)%nat -> ls !! q = Some x ->
     type x = "batch_normalization"%string ->
     re_search_number (name x) <> Some num) ->
  parse_layers ls !! i = Some (fuse c bn).
Proof.
  intros Hi Hc Hname Hp Hbn Hnum Hlast.
  assert (Hd : build_bn_layers ls !! name c = Some p).
  { apply (bn_layers_last ls p bn); [exact Hp| |].
    - unfold bn_keys. rewrite (type_is_eq _ _ Hbn), Hnum.
      destruct Hname as [->| ->]; cbn; auto.
    - intros q x Hq Hx. unfold bn_keys.
      destruct (type_is "batch_normalization" x) eqn:Hty; [|intros []].
      apply String.eqb_eq in Hty. specialize (Hlast q x Hq Hx Hty).
      destruct (re_search_number (name x)) as [num'|].
      + intros [E|[E|[]]]; destruct Hname as [Hn|Hn]; rewrite Hn in E;
          cbv [String.append] in E; try discriminate E;
          inversion E; subst; congruence.
      + destruct (String.eqb (name x) "batch_normalization");
          [|intros []].
        intros [E|[]]. destruct Hname as [Hn|Hn]; rewrite Hn in E;
          cbv [String.append] in E; discriminate E. }
  unfold parse_layers. rewrite match_conv_bn_pairs_lookup, Hi. cbn. f_equal.
  unfold reconcile_at, find_bn_layer.
  rewrite (type_is_eq _ _ Hc), Hd, Hp. reflexivity.
Qed.

(** ** The configuration generator, continued *)

Lemma generate_layers_sections (ls : list LayerInfo) (k : Z) :
  generate_layers ls k =
  (fold_right String.append EmptyString (map write_layer (without_bn ls)),
   k + Z.of_nat (length (without_bn ls))).
Proof.
  unfold without_bn. revert k. induction ls as [|x ls IH]; intros k.
  - cbn. rewrite Z.add_0_r. reflexivity.
  - cbn [generate_layers List.filter].
    destruct (type_is "batch_normalization" x); cbn [negb].
    + apply IH.
    + rewrite IH. cbn [map fold_right length]. f_equal. lia.
Qed.

(** X22: the text that [generate] writes is the [net] section followed by
    what [write_layer] gives for each record that is not a batch
    normalization, in the order of the list; the count it reports is the
    number of those records, those for which [write_layer] writes nothing
    included. *)
Theorem generate_is_net_then_layers (ls : list LayerInfo)
    (shape : Z * Z * Z) (batch subdivisions : Z) :
  generate ls shape batch subdivisions =
  (write_net_section shape batch subdivisions "0.9" "0.0005" +:+
   fold_right String.append EmptyString (map write_layer (without_bn ls)),
   Z.of_nat (length (without_bn ls))).
Proof.
  unfold generate. rewrite generate_layers_sections. reflexivity.
Qed.

(** X23: the activation written for a convolution is always [linear] or
    [leaky]; it is [leaky] exactly for the activations relu, leaky and
    leaky_relu, and [linear] for every other one and for a missing one. *)
Theorem cfg_activation_vocabulary (a : option string) :
  (cfg_activation a = "linear"%string \/ cfg_activation a = "leaky"%string) /\
  (cfg_activation a = "leaky"%string <->
   a = Some "relu"%string \/ a = Some "leaky"%string \/
   a = Some "leaky_relu"%string).
Proof.
  unfold cfg_activation. destruct a as [act|].
  2: { split; [auto|]. split; [discriminate|]. intros [?|[?|?]]; discriminate. }
  destruct (String.eqb_spec act "linear") as [->|Hl].
  { split; [auto|]. split; [discriminate|]. intros [?|[?|?]]; discriminate. }
  destruct (String.eqb_spec act "relu") as [->|Hr]; cbn [orb].
  { split; [auto|split; [intros _; auto|intros _; reflexivity]]. }
  destruct (String.eqb_spec act "leaky") as [->|Hk]; cbn [orb].
  { split; [auto|split; [intros _; auto|intros _; reflexivity]]. }
  destruct (String.eqb_spec act "leaky_relu") as [->|Hlr].
  { split; [auto|split; [intros _; auto|intros _; reflexivity]]. }
  split; [auto|]. split; [discriminate|].
  intros [[= ->]|[[= ->]|[= ->]]]; contradiction.
Qed.

(** X24: [write_layer] writes a section exactly for the records of type
    convolutional, maxpool, upsample, route and shortcut, and the section
    begins with the type of the record between brackets on a line of its
    own; for a record of any other type it writes nothing. *)
Theorem write_layer_sections (layer : LayerInfo) :
  (write_layer layer <> EmptyString <->
   In (type layer)
     ["convolutional"; "maxpool"; "upsample"; "route"; "shortcut"]%string) /\
  (write_layer layer <> EmptyString ->
   exists body,
     write_layer layer = "[" +:+ type layer +:+ "]" +:+ nl +:+ body).
Proof.
  unfold write_layer, type_is.
  destruct (String.eqb_spec (type layer) "convolutional") as [E|N1].
  { rewrite E. split; [split; [cbn; auto|discriminate]|].
    intros _. eexists. reflexivity. }
  destruct (String.eqb_spec (type layer) "maxpool") as [E|N2].
  { rewrite E. split; [split; [cbn; auto|discriminate]|].
    intros _. eexists. reflexivity. }
  destruct (String.eqb_spec (type layer) "upsample") as [E|N3].
  { rewrite E. split; [split; [cbn; auto|discriminate]|].
    intros _. eexists. reflexivity. }
  destruct (String.eqb_spec (type layer) "route") as [E|N4].
  { rewrite E. split; [split; [cbn; auto 6|discriminate]|].
    intros _. eexists. reflexivity. }
  destruct (String.eqb_spec (type layer) "shortcut") as [E|N5].
  { rewrite E. split; [split; [cbn; auto 7|discriminate]|].
    intros _. eexists. reflexivity. }
  split; [|intros H; contradiction].
  split; [intros H; contradiction|].
  cbn. intros [?|[?|[?|[?|[?|[]]]]]]; congruence.
Qed.

(** ** The whole file *)

Section FileFacts.

Variable host : ByteOrder.

Lemma for_each_return_blocks (convs : list LayerInfo) :
  forall w w',
    for_each (write_convolutional_layer host) convs w = (w', Ok tt) ->
    output_file w' =
      output_file w ++ f32_bytes host (concat (map block_arrays convs)) /\
    total_bytes_written w' =
      total_bytes_written w +
      4 * Z.of_nat (length (concat (map block_arrays convs))).
Proof.
  induction convs as [|x convs IH]; intros w w' H; cbn [for_each] in H.
  - injection H as <-. cbn. rewrite app_nil_r. split; [reflexivity|lia].
  - unfold mbind, W_bind in H.
    destruct (write_convolutional_layer host x w) as [w1 [[]|e]] eqn:Hx;
      [|discriminate H].
    apply write_conv_return in Hx as (n & ws & _ & _ & _ & _ & Ho & _ & Ht).
    apply IH in H as [Ho' Ht'].
    cbn [map concat]. rewrite f32_bytes_app, length_app, Ho', Ht', Ho, Ht.
    rewrite <- app_assoc. split; [reflexivity|lia].
Qed.

(** X25: when [write_layers] returns, what it has appended is the blocks of
    the convolutions of the list, one after the other in the order of the
    list, and nothing for any other record. *)
Theorem write_layers_return_blocks (ls : list LayerInfo)
    (w w' : DarknetWeightsWriter) :
  write_layers host ls w = (w', Ok tt) ->
  output_file w' =
    output_file w ++
    f32_bytes host (concat (map block_arrays (get_conv_layers ls))) /\
  total_bytes_written w' =
    total_bytes_written w +
    4 * Z.of_nat (length (concat (map block_arrays (get_conv_layers ls)))).
Proof. apply for_each_return_blocks. Qed.

Lemma for_each_return_params (convs : list LayerInfo) :
  forall w w' t0 n0,
    for_each (write_convolutional_layer host) convs w = (w', Ok tt) ->
    Forall (fun l => biases l <> None) convs ->
    total_bytes_written w' =
      total_bytes_written w +
      4 * ((fold_left
              (fun total layer =>
                 total + size_or_zero (weights layer) +
                 size_or_zero (biases layer)) convs t0 - t0) +
           3 * (fold_left
                  (fun total layer =>
                     total + (if batch_normalize layer
                              then default 0 (filters layer) else 0))
                  convs n0 - n0)).
Proof.
  induction convs as [|x convs IH]; intros w w' t0 n0 H Hb;
    cbn [for_each fold_left] in *.
  - injection H as <-. lia.
  - unfold mbind, W_bind in H.
    destruct (write_convolutional_layer host x w) as [w1 [[]|e]] eqn:Hx;
      [|discriminate H].
    inversion Hb as [|? ? Hbx Hbs]; subst.
    apply write_conv_return in Hx
      as (n & ws & Hn & Hws & Hlen & _ & _ & Hblock & Ht).
    rewrite (IH w1 w'
               (t0 + size_or_zero (weights x) + size_or_zero (biases x))
               (n0 + (if batch_normalize x then default 0 (filters x)
                      else 0)) H Hbs), Ht, Hblock, Hn, Hws.
    unfold biases_or_zeros in Hlen.
    destruct (biases x) as [b|]; [|contradiction].
    cbn [size_or_zero default from_option id].
    destruct (batch_normalize x); lia.
Qed.

(** X26: for a model in which every convolution has biases, the bytes that
    a [write_layers] that returns has appended are four times the
    [total_params] of [print_summary] plus twelve for every filter of a
    normalized convolution. *)
Theorem bytes_from_total_params (ls : list LayerInfo)
    (w w' : DarknetWeightsWriter) :
  write_layers host ls w = (w', Ok tt) ->
  Forall (fun l => biases l <> None) (get_conv_layers ls) ->
  total_bytes_written w' =
    total_bytes_written w +
    4 * (total_params ls + 3 * normalized_filters ls).
Proof.
  intros H Hb. unfold total_params, normalized_filters.
  unfold write_layers in H. unfold get_conv_layers in *.
  rewrite (for_each_return_params _ _ _ 0 0 H Hb). lia.
Qed.

Lemma write_header_return (major minor revision seen : Z)
    (w w1 : DarknetWeightsWriter) :
  write_header host major minor revision seen w = (w1, Ok tt) ->
  in_int32 major = true /\ in_int32 minor = true /\
  in_int32 revision = true /\
  (if 2 <=? major * 10 + minor then in_int64 seen else in_int32 seen)
    = true /\
  w1 = mkWriter
         (output_file w ++
          encode_int host 4 major ++ encode_int host 4 minor ++
          encode_int host 4 revision ++
          encode_int host (if 2 <=? major * 10 + minor then 8%nat else 4%nat)
            seen)
         true
         (total_bytes_written w + 12 +
          Z.of_nat (if 2 <=? major * 10 + minor then 8%nat else 4%nat)).
Proof.
  intros H.
  destruct (file_handle w) eqn:Hopen.
  2: { unfold write_header, mbind, W_bind, require_open in H.
       rewrite Hopen in H. discriminate H. }
  destruct (in_int32 major) eqn:Hmaj, (in_int32 minor) eqn:Hmin,
    (in_int32 revision) eqn:Hrev;
    try (unfold write_header, mbind, W_bind, require_open, lift,
           struct_pack_iii, struct_pack_i in H;
         rewrite Hopen, Hmaj, ?Hmin, ?Hrev in H; discriminate H).
  destruct (if 2 <=? major * 10 + minor then in_int64 seen
            else in_int32 seen) eqn:Hseen.
  - pose proof (write_header_ok host major minor revision seen w
                  Hopen Hmaj Hmin Hrev Hseen) as Hok.
    cbn zeta in Hok. rewrite Hok in H. injection H as <-.
    repeat split.
  - exfalso.
    unfold write_header, mbind, W_bind, require_open, lift, struct_pack_iii,
      struct_pack_i, struct_pack_q, file_write, add_bytes_written in H.
    rewrite Hopen, Hmaj, Hmin, Hrev in H.
    destruct (2 <=? major * 10 + minor); rewrite Hseen in H;
      discriminate H.
Qed.

(** X27: when [write_model], called on a writer that holds no open handle,
    returns, the file is the header, major, minor
    and revision as int32 and seen in the width of the version, followed by
    the blocks of the convolutions in the order of the list; the handle is
    closed, and the header reader returns the four header values as soon as
    the file has 20 bytes. *)
Theorem write_model_return_layout (ls : list LayerInfo)
    (major minor revision seen : Z) (w0 w' : DarknetWeightsWriter) :
  file_handle w0 = false ->
  write_model host ls major minor revision seen w0 = (w', Ok tt) ->
  let seen_width := if 2 <=? major * 10 + minor then 8%nat else 4%nat in
  let header := encode_int host 4 major ++ encode_int host 4 minor ++
                encode_int host 4 revision ++
                encode_int host seen_width seen in
  output_file w' =
    header ++
    f32_bytes host (concat (map block_arrays (get_conv_layers ls))) /\
  file_handle w' = false /\
  ((20 <= length (output_file w'))%nat ->
   verify_darknet_weights_header host (output_file w') =
   Ok (major, minor, revision, seen)).
Proof.
  intros _ H seen_width header.
  unfold write_model, try_finally_close, open, close in H.
  unfold mbind at 1, W_bind at 1 in H. unfold mbind at 1, W_bind at 1 in H.
  destruct (write_header host major minor revision seen (mkWriter [] true 0))
    as [w1 [[]|e]] eqn:Hh; [|discriminate H].
  apply write_header_return in Hh as (Hmaj & Hmin & Hrev & Hseen & ->).
  destruct (write_layers host ls _) as [w2 [[]|e]] eqn:Hl;
    cbn [fst snd] in H; [|discriminate H].
  apply for_each_return_blocks in Hl as [Ho _].
  injection H as <-. cbn [output_file file_handle app] in *.
  rewrite Ho. fold seen_width header.
  split; [reflexivity|split; [reflexivity|]].
  intros Hlen. apply verify_header_roundtrip; assumption.
Qed.

Lemma f32_valid_app (a b : list float32) :
  f32_valid (a ++ b) <-> f32_valid a /\ f32_valid b.
Proof. unfold f32_valid. apply Forall_app. Qed.

(** X28: the block of a convolution that has been written can be read
    back with [read_binary_floats]: reading [filters] items from where the
    block begins gives the biases (or the zeros written for them) and leaves
    the handle on the next array, and reading as many items as the block
    holds gives all its arrays in order and leaves nothing. *)
Theorem block_read_back (layer : LayerInfo) (w w' : DarknetWeightsWriter) :
  write_convolutional_layer host layer w = (w', Ok tt) ->
  f32_valid (block_arrays layer) ->
  let written := drop (length (output_file w)) (output_file w') in
  read_binary_floats host written
    (Z.of_nat (length (block_arrays layer))) =
    ReadOk (block_arrays layer) [] /\
  exists n others,
    filters layer = Some n /\
    block_arrays layer = biases_or_zeros layer ++ others /\
    read_binary_floats host written n =
      ReadOk (biases_or_zeros layer) (f32_bytes host others).
Proof.
  intros H Hv written.
  apply write_conv_return in H as (n & ws & Hn & _ & Hlen & _ & Ho & _ & _).
  assert (Hw : written = f32_bytes host (block_arrays layer)).
  { unfold written. rewrite Ho. apply drop_app_length. }
  assert (Hread : forall a rest, f32_valid a ->
            read_binary_floats host (f32_bytes host a ++ rest)
              (Z.of_nat (length a)) = ReadOk a rest).
  { intros a rest Ha. unfold read_binary_floats.
    assert (Hneg : (Z.of_nat (length a) <? 0) = false)
      by (apply Z.ltb_ge; lia).
    rewrite Hneg, Nat2Z.id, np_fromfile_f32_bytes by exact Ha.
    rewrite Z.eqb_refl. reflexivity. }
  split.
  - rewrite Hw, <- (app_nil_r (f32_bytes host (block_arrays layer))).
    apply Hread, Hv.
  - exists n. eexists. split; [exact Hn|]. split; [reflexivity|].
    rewrite Hw, <- Hlen. unfold block_arrays at 1.
    rewrite f32_bytes_app. apply Hread.
    unfold block_arrays in Hv. apply f32_valid_app in Hv. tauto.
Qed.

Lemma write_conv_refusals (layer : LayerInfo) (w : DarknetWeightsWriter) :
  (file_handle w = false ->
   write_convolutional_layer host layer w =
   (w, Raise RuntimeError_file_not_opened)) /\
  (file_handle w = true -> type_is "convolutional" layer = false ->
   write_convolutional_layer host layer w =
   (w, Raise ValueError_not_convolutional)) /\
  (file_handle w = true -> type_is "convolutional" layer = true ->
   weights layer = None ->
   write_convolutional_layer host layer w =
   (w, Raise ValueError_missing_weights)).
Proof.
  unfold write_convolutional_layer, mbind, W_bind, require_open, raise.
  repeat split.
  - intros ->. reflexivity.
  - intros -> ->. reflexivity.
  - intros -> -> ->. reflexivity.
Qed.

(** X29: [write_convolutional_layer] refuses in this order: a file that
    is not open (RuntimeError), a record that is not a convolution, a
    convolution without weights; each of the three errors is raised in
    exactly that case, and with the writer left as it was. *)
Theorem write_conv_refusal_order (layer : LayerInfo)
    (w : DarknetWeightsWriter) :
  (snd (write_convolutional_layer host layer w) =
     Raise RuntimeError_file_not_opened <-> file_handle w = false) /\
  (snd (write_convolutional_layer host layer w) =
     Raise ValueError_not_convolutional <->
   file_handle w = true /\ type layer <> "convolutional"%string) /\
  (snd (write_convolutional_layer host layer w) =
     Raise ValueError_missing_weights <->
   file_handle w = true /\ type layer = "convolutional"%string /\
   weights layer = None) /\
  (forall e,
     e = RuntimeError_file_not_opened \/ e = ValueError_not_convolutional \/
     e = ValueError_missing_weights ->
     snd (write_convolutional_layer host layer w) = Raise e ->
     fst (write_convolutional_layer host layer w) = w).
Proof.
  pose proof (write_conv_refusals layer w) as (Hclosed & Htype & Hweights).
  assert (Hty : type_is "convolutional" layer = true <->
                type layer = "convolutional"%string)
    by apply String.eqb_eq.
  destruct (file_handle w) eqn:Hopen.
  2: { rewrite (Hclosed eq_refl). cbn [fst snd].
       repeat split; try discriminate; try tauto;
         try (intros (? & _); discriminate). }
  destruct (type_is "convolutional" layer) eqn:Hconv.
  2: { rewrite (Htype eq_refl eq_refl). cbn [fst snd].
       assert (type layer <> "convolutional"%string)
         by (intros E; apply Hty in E; discriminate).
       repeat split; try discriminate; try tauto;
         try (intros (_ & E & _); contradiction). }
  assert (Hc : type layer = "convolutional"%string) by (apply Hty; reflexivity).
  destruct (weights layer) as [ws|] eqn:Hws.
  2: { rewrite (Hweights eq_refl eq_refl eq_refl). cbn [fst snd].
       repeat split; try discriminate; try tauto;
         try (intros (_ & E); contradiction). }
  destruct (write_convolutional_layer host layer w) as [w' o] eqn:H.
  cbn [fst snd].
  assert (Hno : o <> Raise RuntimeError_file_not_opened /\
                o <> Raise ValueError_not_convolutional /\
                o <> Raise ValueError_missing_weights).
  { unfold_block H. rewrite Hopen, Hconv, Hws in H.
    split_block H; inversion H; subst; repeat split; discriminate. }
  destruct Hno as (N1 & N2 & N3).
  split; [|split; [|split]].
  - split; [intros E; contradiction|discriminate].
  - split; [intros E; contradiction|intros (_ & E); contradiction].
  - split; [intros E; contradiction|intros (_ & _ & E); discriminate].
  - intros e [->|[->| ->]] E; contradiction.
Qed.

(** X30: [write_layers] writes only the convolutions of the list, so it
    never raises the error for a record that is not a convolution, whatever
    the list holds; nor does it ever raise the weights size mismatch. *)
Theorem write_layers_never_refuses_type (ls : list LayerInfo)
    (w : DarknetWeightsWriter) :
  snd (write_layers host ls w) <> Raise ValueError_not_convolutional /\
  snd (write_layers host ls w) <> Raise ValueError_weights_size_mismatch.
Proof.
  unfold write_layers.
  assert (Hconv : Forall (fun l => type_is "convolutional" l = true)
                    (List.filter (type_is "convolutional") ls)).
  { apply List.Forall_forall. intros x Hx.
    apply List.filter_In in Hx. tauto. }
  revert w.
  induction (List.filter (type_is "convolutional") ls) as [|x l IH];
    intros w; cbn [for_each].
  - split; discriminate.
  - inversion Hconv as [|? ? Cx Cl]; subst.
    unfold mbind, W_bind.
    destruct (write_convolutional_layer host x w) as [w1 [[]|e]] eqn:Hx.
    + apply IH, Cl.
    + cbn [snd].
      pose proof (write_conv_raise_written host _ _ _ _ Hx) as [Hne _].
      split; [|congruence].
      intros [= ->].
      destruct (write_conv_refusals x w) as (Hclosed & Htype & _).
      destruct (file_handle w) eqn:Hopen.
      * unfold_block Hx. rewrite Hopen, Cx in Hx.
        split_block Hx; discriminate Hx.
      * rewrite (Hclosed eq_refl) in Hx. discriminate Hx.
Qed.

End FileFacts.

(** ** The further statements at concrete inputs (little-endian host) *)

(** [block_layout_on_return] at [no_biases_layer]. *)
Lemma block_layout_on_return_witness :
  exists n ws,
    filters no_biases_layer = Some n /\ weights no_biases_layer = Some ws /\
    output_file
      (fst (write_convolutional_layer LittleEndian no_biases_layer
              open_writer)) =
    output_file open_writer ++
    f32_bytes LittleEndian (block_arrays no_biases_layer).
Proof.
  destruct (block_layout_on_return LittleEndian no_biases_layer open_writer
              (fst (write_convolutional_layer LittleEndian no_biases_layer
                      open_writer)) eq_refl)
    as (n & ws & Hn & Hws & _ & _ & Ho & _).
  exists n, ws. repeat split; assumption.
Defined.

(** [write_model_closes_and_counts] at a new writer and a convolution whose
    scales are too short: the call raises, after the header and the
    biases. *)
Lemma write_model_closes_and_counts_witness :
  snd (write_model LittleEndian [short_scales_layer] 0 2 0 0 new_writer) =
    Raise ValueError_scales_size_mismatch /\
  exists bs,
    fst (write_model LittleEndian [short_scales_layer] 0 2 0 0 new_writer) =
    mkWriter bs false (Z.of_nat (length bs)).
Proof.
  split; [reflexivity|].
  apply (write_model_closes_and_counts LittleEndian [short_scales_layer]
           0 2 0 0 new_writer).
  reflexivity.
Defined.

(** [write_header_failures] at a writer that is not open and at a seen
    count too large for the old format. *)
Lemma write_header_failures_witness :
  write_header LittleEndian 0 2 0 0 new_writer =
    (new_writer, Raise RuntimeError_file_not_opened) /\
  write_header LittleEndian 0 1 0 4294967296 open_writer =
    (mkWriter
       (output_file open_writer ++ encode_int LittleEndian 4 0 ++
        encode_int LittleEndian 4 1 ++ encode_int LittleEndian 4 0)
       true (total_bytes_written open_writer + 12),
     Raise StructError_out_of_range).
Proof.
  split.
  - apply (proj1 (write_header_failures LittleEndian 0 2 0 0 new_writer)).
    reflexivity.
  - apply (proj2 (proj2 (write_header_failures LittleEndian 0 1 0 4294967296
                           open_writer))); reflexivity.
Defined.

(** [is_darknet_weights_by_version] at an empty file and at version
    0.2.0. *)
Lemma is_darknet_weights_by_version_witness :
  _is_darknet_weights LittleEndian (Some []) = false /\
  _is_darknet_weights LittleEndian
    (Some (encode_int LittleEndian 4 0 ++ encode_int LittleEndian 4 2 ++
           encode_int LittleEndian 4 0 ++ [])) = true.
Proof.
  destruct (is_darknet_weights_by_version LittleEndian) as (_ & Hshort & Hv).
  split.
  - apply Hshort. cbn. lia.
  - apply (Hv 0 2 0 [] eq_refl eq_refl eq_refl). lia.
Defined.

(** [validate_accepts_iff] at a model of one complete convolution. *)
Lemma validate_accepts_iff_witness :
  [no_shift_layer] <> [] /\ Some (416, 416, 3) <> None /\
  Forall conv_complete (get_conv_layers [no_shift_layer]).
Proof.
  apply (proj1 (validate_accepts_iff [no_shift_layer] (Some (416, 416, 3)))).
  reflexivity.
Defined.

(** [validated_model_fails_only_on_sizes] at a convolution of two filters
    with one bias. *)
Lemma validated_model_fails_only_on_sizes_witness :
  is_size_error ValueError_biases_size_mismatch = true.
Proof.
  apply (validated_model_fails_only_on_sizes LittleEndian
           [conv_record "conv2d_1" 2 (Some [F32 0; F32 0]) (Some [F32 0])
              false None None None None]
           (Some (416, 416, 3)) open_writer
           ValueError_biases_size_mismatch eq_refl eq_refl eq_refl).
Defined.

(** [fused_block_layout] at a convolution without biases and its batch
    normalization. *)
Lemma fused_block_layout_witness :
  write_convolutional_layer LittleEndian
    (fuse (conv_record "conv2d_1" 1 (Some [F32 1]) None false
             None None None None)
          (bn_record "batch_normalization_1" 1 11 12 13 14))
    open_writer =
  (mkWriter
     (output_file open_writer ++
      f32_bytes LittleEndian
        ([F32 12] ++ [F32 11] ++ [F32 13] ++ [F32 14] ++ [F32 1]))
     true
     (total_bytes_written open_writer + 4 * (4 * 1 + Z.of_nat 1)), Ok tt).
Proof.
  apply (fused_block_layout LittleEndian
           (conv_record "conv2d_1" 1 (Some [F32 1]) None false
              None None None None)
           (bn_record "batch_normalization_1" 1 11 12 13 14)
           open_writer 1 [F32 1] [F32 12] [F32 11] [F32 13] [F32 14]
           eq_refl eq_refl eq_refl eq_refl eq_refl eq_refl eq_refl eq_refl
           eq_refl eq_refl eq_refl eq_refl).
Defined.

(** [verify_header_on_long_file] at a 20-byte file of version 0.1.0. *)
Lemma verify_header_on_long_file_witness :
  verify_darknet_weights_header LittleEndian
    (encode_int LittleEndian 4 0 ++ encode_int LittleEndian 4 1 ++
     encode_int LittleEndian 4 0 ++ encode_int LittleEndian 4 9 ++
     encode_int LittleEndian 4 0) =
  Ok (0, 1, 0, 9).
Proof.
  apply (verify_header_on_long_file LittleEndian
           (encode_int LittleEndian 4 0 ++ encode_int LittleEndian 4 1 ++
            encode_int LittleEndian 4 0 ++ encode_int LittleEndian 4 9 ++
            encode_int LittleEndian 4 0)).
  vm_compute. lia.
Defined.

(** [binary_floats_roundtrip] at an array of two elements. *)
Lemma binary_floats_roundtrip_witness :
  read_binary_floats LittleEndian
    (drop (length (@nil byte))
       (write_binary_floats LittleEndian [] [F32 1; F32 2] ++ []))
    (Z.of_nat (length [F32 1; F32 2])) =
  ReadOk [F32 1; F32 2] [].
Proof.
  apply (binary_floats_roundtrip LittleEndian [] [] [F32 1; F32 2]).
  repeat constructor; cbn; lia.
Defined.

(** [read_binary_floats_error_iff] at one item asked of an empty file. *)
Lemma read_binary_floats_error_iff_witness :
  read_binary_floats LittleEndian [] 1 = ReadValueError.
Proof.
  apply (proj2 (proj1 (read_binary_floats_error_iff LittleEndian [] 1
                         ltac:(unfold count_in_range; lia)))).
  right. cbn. lia.
Defined.

(** [conv_output_size_facts] at a 3x3 kernel with stride 2 on 416. *)
Lemma conv_output_size_facts_witness :
  exists out,
    calculate_conv_output_size 416 3 2 1 = Some out /\
    2 * (out - 1) <= 416 + 2 * 1 - 3 < 2 * out.
Proof.
  apply (proj2 (proj2 (proj2 (conv_output_size_facts 416 3 2 1)))). lia.
Defined.

(** [count_parameters_product] at a shape with a dimension 0. *)
Lemma count_parameters_product_witness : count_parameters [3; 0; 2] = 0.
Proof.
  apply (proj1 (proj2 (proj2 (count_parameters_product [3; 0; 2] [])))).
  right. left. reflexivity.
Defined.

(** [get_layer_by_name_first] at a name that no record has. *)
Lemma get_layer_by_name_first_witness :
  get_layer_by_name conv_then_bn "conv2d_2" = None.
Proof.
  apply (proj2 (get_layer_by_name_first conv_then_bn "conv2d_2")).
  intros layer [<-|[<-|[]]]; discriminate.
Defined.

(** [input_shape_never_zero] at a model whose input shape leaves height
    and width open. *)
Lemma input_shape_never_zero_witness : 416 <> 0 /\ 416 <> 0 /\ 3 <> 0.
Proof.
  apply (input_shape_never_zero
           (OneInput [None; None; Some 0; Some 3])
           (Args.mk None None None 3) (416, 416, 3) 416 416 3
           eq_refl eq_refl).
Defined.

(** [input_shape_precedence] at [--img-size 608 --img-width 320]. *)
Lemma input_shape_precedence_witness :
  determine_input_shape (Args.mk (Some 608) (Some 320) None 3) (416, 416, 1)
  = (608, 320, 3).
Proof.
  pose proof (input_shape_precedence
                (Args.mk (Some 608) (Some 320) None 3) 416 416 1) as H.
  destruct (determine_input_shape (Args.mk (Some 608) (Some 320) None 3)
              (416, 416, 1)) as [[h' w'] c'].
  destruct H as (Hw & _ & Hs & _ & Hc).
  rewrite (Hw 320 eq_refl ltac:(discriminate)).
  rewrite (proj2 (Hs 608 eq_refl ltac:(discriminate)) eq_refl).
  rewrite Hc. reflexivity.
Defined.

(** [re_search_number_characterised] at [batch_normalization_12], in both
    directions. *)
Lemma re_search_number_characterised_witness :
  re_search_number ("batch_normalization" +:+ "_" +:+ "12") =
    Some "12"%string /\
  all_digits "12" = true /\
  exists stem,
    "batch_normalization_12"%string = stem +:+ "_" +:+ "12" \/
    "batch_normalization_12"%string = stem +:+ "_" +:+ "12" +:+ nl.
Proof.
  split.
  - apply (proj1 re_search_number_characterised "batch_normalization" "12").
    + discriminate.
    + reflexivity.
  - apply (proj2 re_search_number_characterised
             "batch_normalization_12" "12"); reflexivity.
Defined.

(** [named_partner_is_fused] at the first convolution of
    [two_convs_one_bn], which does not stand next to its partner. *)
Lemma named_partner_is_fused_witness :
  parse_layers two_convs_one_bn !! 0%nat =
  Some (fuse (LayerInfo_default "conv2d_5" "convolutional" 0)
          (bn_record "batch_normalization_5" 2 11 12 13 14)).
Proof.
  apply (named_partner_is_fused two_convs_one_bn 0 2
           (LayerInfo_default "conv2d_5" "convolutional" 0)
           (bn_record "batch_normalization_5" 2 11 12 13 14) "5"
           eq_refl eq_refl (or_introl eq_refl) eq_refl eq_refl eq_refl).
  intros q x Hq Hx. apply lookup_lt_Some in Hx. cbn in Hx. lia.
Defined.

(** [write_layer_sections] at a route record. *)
Lemma write_layer_sections_witness :
  write_layer (LayerInfo_default "concatenate_1" "route" 3) <> EmptyString.
Proof.
  apply (proj1 (write_layer_sections
                  (LayerInfo_default "concatenate_1" "route" 3))).
  cbn. auto 6.
Defined.

(** [write_layers_return_blocks] at a list of one convolution and one
    other record. *)
Lemma write_layers_return_blocks_witness :
  output_file
    (fst (write_layers LittleEndian [yolo_record; no_biases_layer]
            open_writer)) =
  output_file open_writer ++
  f32_bytes LittleEndian
    (concat (map block_arrays
               (get_conv_layers [yolo_record; no_biases_layer]))).
Proof.
  apply (write_layers_return_blocks LittleEndian
           [yolo_record; no_biases_layer] open_writer
           (fst (write_layers LittleEndian [yolo_record; no_biases_layer]
                   open_writer)) eq_refl).
Defined.

(** [bytes_from_total_params] at [one_weight_layer]: three parameters,
    twelve bytes. *)
Lemma bytes_from_total_params_witness :
  total_bytes_written
    (fst (write_layers LittleEndian [one_weight_layer] open_writer)) =
  total_bytes_written open_writer +
  4 * (total_params [one_weight_layer] +
       3 * normalized_filters [one_weight_layer]).
Proof.
  apply (bytes_from_total_params LittleEndian [one_weight_layer] open_writer
           (fst (write_layers LittleEndian [one_weight_layer] open_writer))
           eq_refl).
  repeat constructor. discriminate.
Defined.

(** [write_model_return_layout] at the default version and one
    convolution. *)
Lemma write_model_return_layout_witness :
  verify_darknet_weights_header LittleEndian
    (output_file
       (fst (write_model LittleEndian [no_biases_layer] 0 2 0 0 new_writer)))
  = Ok (0, 2, 0, 0).
Proof.
  apply (write_model_return_layout LittleEndian [no_biases_layer] 0 2 0 0
           new_writer
           (fst (write_model LittleEndian [no_biases_layer] 0 2 0 0
                   new_writer)) eq_refl eq_refl).
  vm_compute. lia.
Defined.

(** [block_read_back] at [one_weight_layer]. *)
Lemma block_read_back_witness :
  read_binary_floats LittleEndian
    (drop (length (output_file open_writer))
       (output_file
          (fst (write_convolutional_layer LittleEndian one_weight_layer
                  open_writer))))
    (Z.of_nat (length (block_arrays one_weight_layer))) =
  ReadOk (block_arrays one_weight_layer) [].
Proof.
  apply (block_read_back LittleEndian one_weight_layer open_writer
           (fst (write_convolutional_layer LittleEndian one_weight_layer
                   open_writer)) eq_refl).
  repeat constructor; cbn; lia.
Defined.

(** [write_conv_refusal_order] at a record that is not a convolution. *)
Lemma write_conv_refusal_order_witness :
  snd (write_convolutional_layer LittleEndian yolo_record open_writer) =
  Raise ValueError_not_convolutional.
Proof.
  apply (proj1 (proj2 (write_conv_refusal_order LittleEndian yolo_record
                         open_writer))).
  split; [reflexivity|discriminate].
Defined.
